(** * Milk supply prediction and route demo: the form handler of [app.py]

    A shallow embedding of the request handler of [src/app.py]
    ([predict_supply], [optimize_route], [render_page] and
    [SimpleHandler.do_POST]) together with the Python built-ins it calls
    ([str.split], [str.strip], [float], [max], [round], [sum]).

    Conventions of the embedding:
    - a Python [str] is a [string]; each [ascii] stands for the code point
      of the same number (U+0000 to U+00FF), code points above U+00FF are
      outside the model;
    - a Python [float] is an IEEE 754 binary64 number, a [spec_float] with
      [prec = 53] and [emax = 1024]; NaN carries no sign or payload;
    - the dictionary [form] is a [gmap string string];
    - an exception caught by [try ... except ValueError] is [None];
    - the page returned to the browser is kept as a structure ([Page]), the
      HTML text, escaping and number formatting are not modelled. *)

From Stdlib Require Import ZArith Ascii String List Bool Lia.
From Stdlib Require Import Floats.SpecFloat.
From stdpp Require Import base option list gmap strings.

Local Open Scope string_scope.
Local Open Scope Z_scope.
Local Open Scope list_scope.

(** ** Python strings *)

Module PyStr.

Definition code (c : ascii) : Z := Z.of_nat (nat_of_ascii c).

(** [str.isspace] on one character, for code points below 256: the
    characters that [str.strip()] removes. *)
Definition isspace (c : ascii) : bool :=
  let n := code c in
  ((9 <=? n) && (n <=? 13)) || ((28 <=? n) && (n <=? 32))
  || (n =? 133) || (n =? 160).

Fixpoint lstrip_with (sp : ascii -> bool) (s : string) : string :=
  match s with
  | EmptyString => EmptyString
  | String c s' => if sp c then lstrip_with sp s' else s
  end.

Fixpoint rstrip_with (sp : ascii -> bool) (s : string) : string :=
  match s with
  | EmptyString => EmptyString
  | String c s' =>
      match rstrip_with sp s' with
      | EmptyString => if sp c then EmptyString else String c EmptyString
      | r => String c r
      end
  end.

(** [s.strip()] *)
Definition strip (s : string) : string :=
  rstrip_with isspace (lstrip_with isspace s).

(** [s.split(",")]: one field per comma, plus one; empty fields are kept. *)
Fixpoint split_comma (s : string) : list string :=
  match s with
  | EmptyString => [EmptyString]
  | String c s' =>
      if Ascii.eqb c "," then EmptyString :: split_comma s'
      else match split_comma s' with
           | h :: t => String c h :: t
           | [] => [String c EmptyString]
           end
  end.

(** Truth value of a string: non-empty. *)
Definition truthy (s : string) : bool :=
  match s with EmptyString => false | _ => true end.

(** [[t.strip() for t in raw.split(",") if t.strip()]] *)
Definition tokens (raw : string) : list string :=
  List.filter truthy (List.map strip (split_comma raw)).

End PyStr.

(** ** Python floats *)

Module PyFloat.

Definition prec : Z := 53.
Definition emax : Z := 1024.

Abbreviation float := spec_float.

Definition zero : float := S754_zero false.

Definition mul : float -> float -> float := SFmul prec emax.
Definition add : float -> float -> float := SFadd prec emax.
(** [x < y], [x <= y], [x >= y]; every comparison with NaN is [False]. *)
Definition ltb : float -> float -> bool := SFltb.
Definition leb : float -> float -> bool := SFleb.
Definition geb (x y : float) : bool := SFleb y x.

(** The binary64 number nearest to [(-1)^s * d * 10^e] (ties to even),
    infinite on overflow: what the runtime's correctly rounded
    string-to-double conversion returns for the decimal numeral. *)
Definition of_decimal (s : bool) (d : Z) (e : Z) : float :=
  match d with
  | Zpos p =>
      match e with
      | Zneg q =>
          SFdiv prec emax (S754_finite s p 0)
                          (S754_finite false (Pos.pow 10 q) 0)
      | _ => binary_normalize prec emax
               (if s then Z.neg (p * Z.to_pos (10 ^ e)) else Z.pos (p * Z.to_pos (10 ^ e)))
               0 false
      end
  | _ => S754_zero s
  end.

(** *** [float(str)] *)

Definition is_digit (c : ascii) : bool :=
  let n := PyStr.code c in (48 <=? n) && (n <=? 57).

Definition digit_val (c : ascii) : Z := PyStr.code c - 48.

Definition lower (c : ascii) : ascii :=
  let n := PyStr.code c in
  if (65 <=? n) && (n <=? 90) then ascii_of_nat (Z.to_nat (n + 32)) else c.

(** White space that [float] ignores around the numeral: the C locale's
    white space, and the non-ASCII spaces, which the conversion first
    replaces by a blank. *)
Definition isspace (c : ascii) : bool :=
  let n := PyStr.code c in
  ((9 <=? n) && (n <=? 13)) || (n =? 32) || (n =? 133) || (n =? 160).

(** Underscores may only stand between two digits; they are dropped.
    [prev] is the previous character, if any. *)
Fixpoint drop_underscores (prev : option ascii) (s : list ascii)
  : option (list ascii) :=
  match s with
  | [] => match prev with
          | Some p => if Ascii.eqb p "_" then None else Some []
          | None => Some []
          end
  | c :: s' =>
      if Ascii.eqb c "_" then
        match prev with
        | Some p => if is_digit p then drop_underscores (Some c) s' else None
        | None => None
        end
      else
        let ok := match prev with
                  | Some p => if Ascii.eqb p "_" then is_digit c else true
                  | None => true
                  end in
        if ok then cons c <$> drop_underscores (Some c) s' else None
  end.

Fixpoint span_digits (s : list ascii) : list ascii * list ascii :=
  match s with
  | c :: s' => if is_digit c
               then let '(ds, r) := span_digits s' in (c :: ds, r)
               else ([], s)
  | [] => ([], [])
  end.

Definition digits_value (ds : list ascii) : Z :=
  fold_left (fun a c => 10 * a + digit_val c) ds 0.

(** An optional sign: [true] for "-". *)
Definition take_sign (s : list ascii) : bool * list ascii :=
  match s with
  | c :: s' => if Ascii.eqb c "-" then (true, s')
               else if Ascii.eqb c "+" then (false, s') else (false, s)
  | [] => (false, [])
  end.

(** The exponent part: [e] or [E], an optional sign and at least one
    digit.  Returns the exponent and what follows it; when no digit
    follows, nothing is consumed. *)
Definition take_exponent (s : list ascii) : Z * list ascii :=
  match s with
  | c :: s' =>
      if Ascii.eqb (lower c) "e" then
        let '(neg, s'') := take_sign s' in
        match span_digits s'' with
        | ([], _) => (0, s)
        | (ds, r) => ((if neg then - digits_value ds else digits_value ds), r)
        end
      else (0, s)
  | [] => (0, [])
  end.

(** A decimal numeral: digits with an optional point, at least one digit
    in all, then an optional exponent; the whole text must be used. *)
Definition parse_decimal (s : list ascii) : option float :=
  let '(neg, s1) := take_sign s in
  let '(ip, s2) := span_digits s1 in
  let '(fp, s3) :=
    match s2 with
    | c :: r => if Ascii.eqb c "." then span_digits r else ([], s2)
    | [] => ([], s2)
    end in
  match ip ++ fp with
  | [] => None
  | ds =>
      match take_exponent s3 with
      | (ex, []) =>
          Some (of_decimal neg (digits_value ds) (ex - Z.of_nat (List.length fp)))
      | _ => None
      end
  end.

(** "inf", "infinity" and "nan", in any case, with an optional sign. *)
Definition parse_inf_or_nan (s : list ascii) : option float :=
  let '(neg, s1) := take_sign s in
  let w := string_of_list_ascii (List.map lower s1) in
  if String.eqb w "inf" || String.eqb w "infinity" then Some (S754_infinity neg)
  else if String.eqb w "nan" then Some S754_nan
  else None.

(** [float(s)] for a string [s]; [None] stands for [ValueError]. *)
Definition of_string (s : string) : option float :=
  let t := PyStr.rstrip_with isspace (PyStr.lstrip_with isspace s) in
  match drop_underscores None (list_ascii_of_string t) with
  | None => None
  | Some cs =>
      match parse_decimal cs with
      | Some x => Some x
      | None => parse_inf_or_nan cs
      end
  end.

(** *** [round(x, 2)]

    A finite [x] is converted to the decimal numeral with two digits
    after the point that is nearest to its exact value (ties to the even
    last digit), and that numeral is converted back to a float.  Zeros,
    infinities and NaN are returned as they are. *)

(** The integer nearest to [m * 2^e * 100], ties to even. *)
Definition hundredths (m : positive) (e : Z) : Z :=
  match e with
  | Zneg q =>
      let num := 100 * Z.pos m in
      let den := Z.pos (Pos.pow 2 q) in
      let k := num / den in
      match 2 * (num mod den) ?= den with
      | Lt => k
      | Gt => k + 1
      | Eq => if Z.even k then k else k + 1
      end
  | _ => 100 * Z.pos m * 2 ^ e
  end.

Definition round2 (x : float) : float :=
  match x with
  | S754_finite s m e => of_decimal s (hundredths m e) (-2)
  | _ => x
  end.

(** *** [max(a, b)]: the first argument unless the second is greater. *)
Definition max (a b : float) : float := if ltb a b then b else a.

(** *** [sum(xs)] for a list of floats: the terms are added from left to
    right to the start value 0.  (The sum of an empty list is the
    integer 0, which equals the float 0.0 used here; the handler never
    sums an empty list when it computes a result.  Sums are plain
    binary64 additions, without error compensation.) *)
Definition sum (xs : list float) : float := fold_left add xs zero.

(** [x >= 0] as Python evaluates it (false for NaN). *)
Definition nonneg (x : float) : Prop := leb zero x = true.

(** The literal [1.05]. *)
Definition c1_05 : float := Eval vm_compute in of_decimal false 105 (-2).

End PyFloat.

(** ** The application *)

Module App.

Import PyFloat.

Definition MSG_NO_VILLAGE : string :=
  "Please provide at least one village name.".
Definition MSG_NO_MILK : string :=
  "Please provide milk collection numbers (comma separated).".
Definition MSG_MILK_NUMBERS : string :=
  "Milk values must be numbers (e.g. 120, 85.5).".
Definition MSG_MILK_COUNT : string :=
  "Number of milk data entries does not match number of villages. Provide one value per village or one value to broadcast.".
Definition MSG_DIST_NUMBERS : string :=
  "Distance values must be numbers (e.g. 5, 8.2).".
Definition MSG_DIST_COUNT : string :=
  "If you provide distances, provide the same number as villages.".
Definition MSG_CAPACITY : string :=
  "Vehicle capacity must be a positive number.".
Definition MSG_SUCCESS : string := "Result generated successfully.".

(** Truth value of a list: non-empty. *)
Definition nonempty {A} (l : list A) : bool :=
  match l with [] => false | _ => true end.

(** [l * n] on lists: [n] copies of [l], one after the other. *)
Definition list_mul {A} (l : list A) (n : nat) : list A :=
  concat (replicate n l).

(** [form.get(key, "")] *)
Definition form_get (form : gmap string string) (key : string) : string :=
  default "" (form !! key).

(** [[float(x) for x in toks]]; [None] when some [float(x)] raises. *)
Definition floats_of (toks : list string) : option (list float) :=
  mapM of_string toks.

Definition predict_supply (milk_data : list float) : list float :=
  List.map (fun val => round2 (max zero (mul val c1_05))) milk_data.

Definition optimize_route (villages : list string)
    (distances : option (list float)) : list string * option float :=
  match distances with
  | Some ds => let total := round2 (sum ds) in (villages, Some total)
  | None => (villages, None)
  end.

(** *** The page *)

(** One [<div class=cls>text</div>] per message. *)
Definition make_messages_html (msgs : list (string * string))
  : list (string * string) :=
  List.map (fun '(typ, m) =>
              let cls := if String.eqb typ "success" then "success" else "alert" in
              (cls, m)) msgs.

(** The capacity paragraph: total predicted milk, capacity, and whether
    the text reads "Sufficient". *)
Record CapacityHtml := {
  shown_total_predicted : option float;
  shown_capacity : float;
  shown_sufficient : bool }.

(** The part of the page under "Predicted Milk Supply". *)
Record ResultSection := {
  items : list (string * float);
  route_html : list string;
  total_distance_html : option float;
  capacity_html : option CapacityHtml }.

Record Page := {
  messages_html : list (string * string);
  villages_value : string;
  milk_data_value : string;
  distances_value : string;
  capacity_value : string;
  result_section : option ResultSection }.

(** The keyword arguments of [render_page]; an argument left out is
    [None] ([False] for [result]). *)
Record RenderArgs := {
  result : bool;
  villages_list : option (list string);
  predictions : option (list float);
  route : option (list string);
  total_distance : option float;
  capacity : option float;
  capacity_ok : option bool;
  total_predicted : option float;
  form_values : option (gmap string string);
  messages : option (list (string * string)) }.

(** The result section is built only when [result] is true; the handler
    then passes the three lists (a missing list is read as empty here;
    the source raises [TypeError] there, see [render_page_checked]). *)
Definition render_page (a : RenderArgs) : Page :=
  let form_values := default ∅ (form_values a) in
  let messages_html := make_messages_html (default [] (messages a)) in
  let result_section :=
    if result a then
      let items := zip (default [] (villages_list a)) (default [] (predictions a)) in
      let capacity_html :=
        match capacity a with
        | Some c =>
            Some {| shown_total_predicted := total_predicted a;
                    shown_capacity := c;
                    shown_sufficient := default false (capacity_ok a) |}
        | None => None
        end in
      Some {| items := items;
              route_html := default [] (route a);
              total_distance_html := total_distance a;
              capacity_html := capacity_html |}
    else None in
  {| messages_html := messages_html;
     villages_value := form_get form_values "villages";
     milk_data_value := form_get form_values "milk_data";
     distances_value := form_get form_values "distances";
     capacity_value := form_get form_values "capacity";
     result_section := result_section |}.

(** *** [do_POST]: validation (the handler up to its check for errors) *)

(** The handler's local variables once the four fields are parsed. *)
Record Locals := {
  l_messages : list (string * string);
  l_villages : list string;
  l_milk_data : list float;
  l_distances : option (list float);
  l_vehicle_capacity : option float }.

Definition error (m : string) : string * string := ("error", m).

Definition do_POST_parse (form : gmap string string) : Locals :=
  let messages : list (string * string) := [] in
  (* parse villages *)
  let raw_villages := form_get form "villages" in
  let villages := PyStr.tokens raw_villages in
  let messages :=
    if nonempty villages then messages
    else messages ++ [error MSG_NO_VILLAGE] in
  (* parse milk data *)
  let raw_milk := form_get form "milk_data" in
  let milk_tokens := PyStr.tokens raw_milk in
  let messages :=
    if nonempty milk_tokens then messages
    else messages ++ [error MSG_NO_MILK] in
  let milk_data : list float := [] in
  let '(milk_data, messages) :=
    if nonempty milk_tokens then
      match floats_of milk_tokens with
      | Some vals => (vals, messages)
      | None => (milk_data, messages ++ [error MSG_MILK_NUMBERS])
      end
    else (milk_data, messages) in
  let '(milk_data, messages) :=
    if nonempty villages && nonempty milk_data then
      if (length milk_data =? 1)%nat && (1 <? length villages)%nat then
        (list_mul milk_data (length villages), messages)
      else if negb (length milk_data =? length villages)%nat then
        (milk_data, messages ++ [error MSG_MILK_COUNT])
      else (milk_data, messages)
    else (milk_data, messages) in
  (* parse distances (optional) *)
  let distances : option (list float) := None in
  let raw_distances := form_get form "distances" in
  let '(distances, messages) :=
    if PyStr.truthy (PyStr.strip raw_distances) then
      let dist_tokens := PyStr.tokens raw_distances in
      match floats_of dist_tokens with
      | None => (distances, messages ++ [error MSG_DIST_NUMBERS])
      | Some dist_vals =>
          if negb (length dist_vals =? length villages)%nat then
            (distances, messages ++ [error MSG_DIST_COUNT])
          else (Some dist_vals, messages)
      end
    else (distances, messages) in
  (* parse capacity (optional) *)
  let vehicle_capacity : option float := None in
  let raw_capacity := PyStr.strip (form_get form "capacity") in
  let '(vehicle_capacity, messages) :=
    if PyStr.truthy raw_capacity then
      match of_string raw_capacity with
      | Some c =>
          if leb c zero then (Some c, messages ++ [error MSG_CAPACITY])
          else (Some c, messages)
      | None => (vehicle_capacity, messages ++ [error MSG_CAPACITY])
      end
    else (vehicle_capacity, messages) in
  {| l_messages := messages; l_villages := villages;
     l_milk_data := milk_data; l_distances := distances;
     l_vehicle_capacity := vehicle_capacity |}.

(** [[m for t, m in messages if t == "error"]] *)
Definition err_msgs_of (messages : list (string * string)) : list string :=
  List.map snd (List.filter (fun tm => String.eqb (fst tm) "error") messages).

(** *** [do_POST]: the arguments it hands to [render_page] *)
Definition do_POST_args (form : gmap string string) : RenderArgs :=
  let st := do_POST_parse form in
  let err_msgs := err_msgs_of (l_messages st) in
  if nonempty err_msgs then
    {| result := false; villages_list := None; predictions := None;
       route := None; total_distance := None; capacity := None;
       capacity_ok := None; total_predicted := None;
       form_values := Some form;
       messages := Some (List.map error err_msgs) |}
  else
    (* compute predictions and route *)
    let predictions := predict_supply (l_milk_data st) in
    let '(route_order, total_distance) :=
      optimize_route (l_villages st) (l_distances st) in
    let total_predicted := round2 (sum predictions) in
    let capacity_ok :=
      match l_vehicle_capacity st with
      | Some c => Some (geb c total_predicted)
      | None => None
      end in
    {| result := true;
       villages_list := Some (l_villages st);
       predictions := Some predictions;
       route := Some route_order;
       total_distance := total_distance;
       capacity := l_vehicle_capacity st;
       capacity_ok := capacity_ok;
       total_predicted := Some total_predicted;
       form_values := Some form;
       messages := Some [("success", MSG_SUCCESS)] |}.

(** The page written to the client (the status is always 200). *)
Definition do_POST (form : gmap string string) : Page :=
  render_page (do_POST_args form).

(** The error messages of a submission. *)
Definition errors (form : gmap string string) : list string :=
  err_msgs_of (l_messages (do_POST_parse form)).

(** A form with the four fields; a blank field is not sent. *)
Definition form_of (villages milk_data distances capacity : string)
  : gmap string string :=
  list_to_map
    (List.filter (fun kv => PyStr.truthy (snd kv))
       [("villages", villages); ("milk_data", milk_data);
        ("distances", distances); ("capacity", capacity)]).

End App.

(** ** What each field contributes *)

Module Fields.

Import PyFloat App.

Definition villages_of (form : gmap string string) : list string :=
  PyStr.tokens (form_get form "villages").
Definition milk_tokens_of (form : gmap string string) : list string :=
  PyStr.tokens (form_get form "milk_data").
Definition dist_tokens_of (form : gmap string string) : list string :=
  PyStr.tokens (form_get form "distances").
Definition dist_blank (form : gmap string string) : bool :=
  negb (PyStr.truthy (PyStr.strip (form_get form "distances"))).
Definition capacity_text (form : gmap string string) : string :=
  PyStr.strip (form_get form "capacity").

(** One milk value for several villages. *)
Definition broadcasts (vals : list float) (n : nat) : bool :=
  (length vals =? 1)%nat && (1 <? n)%nat.

Definition village_errs (form : gmap string string) : list string :=
  if nonempty (villages_of form) then [] else [MSG_NO_VILLAGE].

Definition milk_errs (form : gmap string string) : list string :=
  match milk_tokens_of form with
  | [] => [MSG_NO_MILK]
  | toks =>
      match floats_of toks with
      | None => [MSG_MILK_NUMBERS]
      | Some vals =>
          if nonempty (villages_of form)
             && negb (broadcasts vals (length (villages_of form)))
             && negb (length vals =? length (villages_of form))%nat
          then [MSG_MILK_COUNT] else []
      end
  end.

Definition dist_errs (form : gmap string string) : list string :=
  if dist_blank form then []
  else match floats_of (dist_tokens_of form) with
       | None => [MSG_DIST_NUMBERS]
       | Some vals =>
           if (length vals =? length (villages_of form))%nat then []
           else [MSG_DIST_COUNT]
       end.

Definition capacity_errs (form : gmap string string) : list string :=
  match capacity_text form with
  | EmptyString => []
  | text => match of_string text with
            | None => [MSG_CAPACITY]
            | Some c => if leb c zero then [MSG_CAPACITY] else []
            end
  end.

(** The milk values after the broadcast step. *)
Definition milk_values (form : gmap string string) : list float :=
  match floats_of (milk_tokens_of form) with
  | None => []
  | Some vals =>
      if nonempty (villages_of form)
         && broadcasts vals (length (villages_of form))
      then list_mul vals (length (villages_of form)) else vals
  end.

Definition distance_values (form : gmap string string)
  : option (list float) :=
  if dist_blank form then None
  else match floats_of (dist_tokens_of form) with
       | None => None
       | Some vals =>
           if (length vals =? length (villages_of form))%nat
           then Some vals else None
       end.

Definition capacity_value_of (form : gmap string string) : option float :=
  match capacity_text form with
  | EmptyString => None
  | text => of_string text
  end.

(** The handler's capacity test: the capacity is not blank and [float]
    raises, or the value satisfies [vehicle_capacity <= 0]. *)
Definition capacity_test_fails (form : gmap string string) : Prop :=
  capacity_text form <> "" /\
  (of_string (capacity_text form) = None \/
   exists c, of_string (capacity_text form) = Some c /\ leb c zero = true).

End Fields.

(** ** The validation rules, as the specification words them *)

Module Rules.

Import PyFloat App Fields.

Section Rules.

Variable form : gmap string string.

(** Some token is not a number. *)
Definition bad_number (toks : list string) : Prop :=
  Exists (fun t => of_string t = None) toks.

(** Rule 1: the villages field yields no name. *)
Definition no_village : Prop := villages_of form = [].

(** Rule 2: the milk field yields no token. *)
Definition no_milk : Prop := milk_tokens_of form = [].

(** Rule 2: some milk token is not a number. *)
Definition milk_not_numbers : Prop := bad_number (milk_tokens_of form).

(** Rule 3: villages and milk values are both present, the single
    value is not broadcast, and the two lengths differ. *)
Definition milk_count_mismatch : Prop :=
  villages_of form <> [] /\
  exists vals, floats_of (milk_tokens_of form) = Some vals /\ vals <> [] /\
    ~ (length vals = 1%nat /\ (1 < length (villages_of form))%nat) /\
    length vals <> length (villages_of form).

(** Rule 4: the distances field is not blank and some token is not a
    number. *)
Definition dist_not_numbers : Prop :=
  PyStr.strip (form_get form "distances") <> "" /\
  bad_number (dist_tokens_of form).

(** Rule 4: the distances are numbers, but not one per village. *)
Definition dist_count_mismatch : Prop :=
  PyStr.strip (form_get form "distances") <> "" /\
  exists vals, floats_of (dist_tokens_of form) = Some vals /\
    length vals <> length (villages_of form).

(** Rule 5: the capacity is not blank and it is not so that it parses as
    a float and is strictly positive. *)
Definition capacity_not_positive : Prop :=
  capacity_text form <> "" /\
  ~ exists c, of_string (capacity_text form) = Some c /\ ltb zero c = true.

End Rules.

End Rules.

(** ** The HTML text of the parts of the page that carry submitted text *)

Module Html.

Import App.

Definition dquote : ascii := Eval cbv in ascii_of_nat 34.
Definition newline : ascii := Eval cbv in ascii_of_nat 10.

(** [s.replace(c, r)] for a pattern [c] of one character. *)
Fixpoint replace (c : ascii) (r : string) (s : string) : string :=
  match s with
  | EmptyString => EmptyString
  | String a s' =>
      if Ascii.eqb a c then r +:+ replace c r s'
      else String a (replace c r s')
  end.

(** [html.escape(s)] (with [quote=True]): the ampersand first, then the
    angle brackets, then the two quotes. *)
Definition escape (s : string) : string :=
  let s := replace "&" "&amp;" s in
  let s := replace "<" "&lt;" s in
  let s := replace ">" "&gt;" s in
  let s := replace dquote "&quot;" s in
  let s := replace "'" "&#x27;" s in
  s.

(** The five characters that [escape] rewrites. *)
Definition special (c : ascii) : bool :=
  Ascii.eqb c "&" || Ascii.eqb c "<" || Ascii.eqb c ">"
  || Ascii.eqb c dquote || Ascii.eqb c "'".

(** The characters of [s], in order. *)
Definition chars (s : string) : list ascii := list_ascii_of_string s.

(** How often the character [c] occurs in [s]. *)
Fixpoint count (c : ascii) (s : string) : nat :=
  match s with
  | EmptyString => 0%nat
  | String a s' => ((if Ascii.eqb a c then 1 else 0) + count c s')%nat
  end.

(** One message of [make_messages_html]:
    [<div class="{cls}">{html.escape(m)}</div>]. *)
Definition message_div (cls m : string) : string :=
  "<div class=" +:+ String dquote cls +:+ String dquote ">"
  +:+ escape m +:+ "</div>".

(** The text that [make_messages_html] returns: the messages' [div]s,
    joined by newlines (the empty text for no message). *)
Definition make_messages_html_text (msgs : list (string * string)) : string :=
  String.concat (String newline "")
    (List.map (fun cm => message_div (fst cm) (snd cm))
       (make_messages_html msgs)).

(** The route of [render_page]:
    ["<ol>" + "".join(f"<li>{html.escape(r)}</li>" for r in route) + "</ol>"]. *)
Definition route_html_text (route : list string) : string :=
  "<ol>"
  +:+ String.concat "" (List.map (fun r => "<li>" +:+ escape r +:+ "</li>") route)
  +:+ "</ol>".

(** The text put between the quotes of an input's [value="..."]:
    [html.escape(form_values.get(key, ""))]. *)
Definition value_attr (form_values : gmap string string) (key : string)
  : string :=
  escape (form_get form_values key).

End Html.

(** ** From the request to the form *)

Module Request.

Import App.

(** [{k: (v[0] if v else "") for k, v in data.items()}], for the
    dictionary [data] of the decoded request body (each key with the list
    of its values). *)
Definition form_from_data (data : gmap string (list string))
  : gmap string string :=
  (fun v => match v with x :: _ => x | [] => "" end) <$> data.

(** The page of [do_GET]: [render_page(result=False, form_values={})]. *)
Definition do_GET : Page :=
  render_page
    {| result := false; villages_list := None; predictions := None;
       route := None; total_distance := None; capacity := None;
       capacity_ok := None; total_predicted := None;
       form_values := Some ∅; messages := None |}.

(** [render_page] with the exception it can raise: with [result=True] the
    source iterates [villages_list], [predictions] and [route], and a list
    left out ([None]) raises [TypeError], here [None]; with
    [result=False] the three arguments are not looked at. *)
Definition render_page_checked (a : RenderArgs) : option Page :=
  if result a then
    match villages_list a, predictions a, route a with
    | Some _, Some _, Some _ => Some (render_page a)
    | _, _, _ => None
    end
  else Some (render_page a).

(** The messages in the order in which the handler can raise them. *)
Definition all_errors : list string :=
  [MSG_NO_VILLAGE; MSG_NO_MILK; MSG_MILK_NUMBERS; MSG_MILK_COUNT;
   MSG_DIST_NUMBERS; MSG_DIST_COUNT; MSG_CAPACITY].

(** The four fields that the handler reads. *)
Definition field_names : list string :=
  ["villages"; "milk_data"; "distances"; "capacity"].

(** A token as the handler keeps it: not empty, nothing to strip, no comma. *)
Definition clean_token (t : string) : Prop :=
  t <> "" /\ PyStr.strip t = t /\ ~ In ","%char (list_ascii_of_string t).

End Request.

(** ** The sign of a float *)

Module FloatShape.

Import PyFloat.

(** [x] is a zero, an infinity or a finite number of sign [s] ([true] for
    negative); NaN has no sign. *)
Definition has_sign (s : bool) (x : float) : Prop :=
  match x with
  | S754_zero s' | S754_infinity s' | S754_finite s' _ _ => s' = s
  | S754_nan => False
  end.

(** The numeral of [float(text)], once surrounding white space and an
    optional sign are taken away, in lower case. *)
Definition bare_word (text : string) : string :=
  let t := PyStr.rstrip_with isspace (PyStr.lstrip_with isspace text) in
  string_of_list_ascii
    (List.map lower (snd (take_sign (list_ascii_of_string t)))).

End FloatShape.

(** ** Sample submissions *)

Module Scenarios.

Import App.

Definition scenario_A : gmap string string := form_of "A, B" "100, 200" "" "".
Definition scenario_B : gmap string string := form_of "A, B, C" "50" "" "".
Definition scenario_B3 : gmap string string :=
  <["milk_data" := "50, 50, 50"]> scenario_B.
Definition scenario_C : gmap string string :=
  form_of "A, B" "100, 200" "5, 8" "".
Definition scenario_D : gmap string string := form_of "A" "100" "" "90".
Definition scenario_E : gmap string string := form_of "" "100" "" "".

Definition scenario_negative : gmap string string :=
  form_of "A, B" "-100, -0.5" "" "".

End Scenarios.

Module FloatFacts.

Import PyFloat.

Lemma nonneg_cases (x : float) :
  nonneg x <->
  match x with
  | S754_zero _ => True
  | S754_infinity s | S754_finite s _ _ => s = false
  | S754_nan => False
  end.
Proof.
  unfold nonneg, leb, SFleb. destruct x as [s|s| |s m e]; simpl;
    try destruct s; intuition congruence.
Qed.

Lemma shr_1_nonneg (mrs : shr_record) :
  0 <= shr_m mrs -> 0 <= shr_m (shr_1 mrs).
Proof.
  destruct mrs as [m r s]. simpl.
  destruct m as [|[p|p|]|[p|p|]]; simpl; lia.
Qed.

Lemma iter_shr_1_nonneg (p : positive) (mrs : shr_record) :
  0 <= shr_m mrs -> 0 <= shr_m (SpecFloat.iter_pos shr_1 p mrs).
Proof.
  revert mrs. induction p as [p IH|p IH|]; intros mrs H; simpl.
  - apply IH, IH, shr_1_nonneg, H.
  - apply IH, IH, H.
  - apply shr_1_nonneg, H.
Qed.

Lemma shr_fexp_nonneg (m e : Z) (l : location) :
  0 <= m -> 0 <= shr_m (fst (shr_fexp prec emax m e l)).
Proof.
  intros H. unfold shr_fexp, shr.
  assert (H0 : 0 <= shr_m (shr_record_of_loc m l))
    by (destruct l as [|[ | | ]]; exact H).
  destruct (fexp prec emax (Zdigits2 m + e) - e); simpl; try exact H0.
  apply iter_shr_1_nonneg, H0.
Qed.

Lemma round_nearest_even_nonneg (m : Z) (l : location) :
  0 <= m -> 0 <= round_nearest_even m l.
Proof.
  intros H. destruct l as [|[ | | ]]; simpl; try lia.
  destruct (Z.even m); lia.
Qed.

(** Rounding a non-negative mantissa with a positive sign never yields
    NaN or a negative number. *)
Lemma binary_round_aux_nonneg (m e : Z) (l : location) :
  0 <= m -> nonneg (binary_round_aux prec emax false m e l).
Proof.
  intros H. unfold binary_round_aux.
  pose proof (shr_fexp_nonneg m e l H) as H1.
  destruct (shr_fexp prec emax m e l) as [mrs' e'] eqn:E1. simpl in H1.
  pose proof (shr_fexp_nonneg _ e' loc_Exact
                (round_nearest_even_nonneg _ (loc_of_shr_record mrs') H1)) as H2.
  destruct (shr_fexp prec emax _ e' loc_Exact) as [mrs'' e''] eqn:E2.
  simpl in H2. apply nonneg_cases.
  destruct (shr_m mrs'') as [|p|p]; [exact I| |lia].
  destruct (e'' <=? emax - prec); reflexivity.
Qed.

Lemma binary_round_nonneg (m : positive) (e : Z) :
  nonneg (binary_round prec emax false m e).
Proof.
  unfold binary_round. destruct (shl_align _ _ _) as [mz ez].
  apply binary_round_aux_nonneg. lia.
Qed.

Lemma of_decimal_nonneg (d e : Z) : nonneg (of_decimal false d e).
Proof.
  unfold of_decimal. destruct d as [|p|p]; try (apply nonneg_cases; exact I).
  destruct e as [|q|q]; try apply binary_round_nonneg.
  unfold SFdiv, SFdiv_core_binary.
  set (m' := match _ - _ with Z0 => Z.pos p | Zpos _ => _ | Zneg _ => 0 end).
  assert (Hm : 0 <= m').
  { subst m'. destruct (_ - _); try lia. apply Z.shiftl_nonneg. lia. }
  pose proof (Z.div_pos m' (Z.pos (10 ^ q)) Hm ltac:(lia)) as Hq.
  unfold Z.div in Hq.
  destruct (Z.div_eucl m' (Z.pos (10 ^ q))) as [k r]. simpl in Hq |- *.
  apply binary_round_aux_nonneg, Hq.
Qed.

Lemma round2_nonneg (x : float) : nonneg x -> nonneg (round2 x).
Proof.
  intros H. destruct x as [s|s| |s m e]; try exact H.
  apply nonneg_cases in H. subst s. apply of_decimal_nonneg.
Qed.

Lemma max_zero_nonneg (x : float) : nonneg (max zero x).
Proof.
  unfold max. destruct (ltb zero x) eqn:E; [|reflexivity].
  apply nonneg_cases. unfold ltb, SFltb, zero in E.
  destruct x as [s|s| |s m e]; simpl in E; try destruct s; congruence.
Qed.

Lemma add_nonneg (x y : float) : nonneg x -> nonneg y -> nonneg (add x y).
Proof.
  intros Hx Hy. apply nonneg_cases in Hx, Hy.
  destruct x as [sx|sx| |sx mx ex], y as [sy|sy| |sy my ey];
    try contradiction; subst; unfold add, SFadd.
  all: try (apply nonneg_cases; first [exact I | reflexivity]).
  - destruct sx, sy; apply nonneg_cases; exact I.
  - unfold cond_Zopp, binary_normalize. simpl Z.add.
    apply binary_round_nonneg.
Qed.

Lemma sum_nonneg (xs : list float) : Forall nonneg xs -> nonneg (sum xs).
Proof.
  unfold sum. assert (H0 : nonneg zero) by reflexivity. revert H0.
  generalize zero as acc. induction xs as [|x xs IH]; intros acc Hacc Hxs.
  - exact Hacc.
  - inversion Hxs; subst. simpl. apply IH; [apply add_nonneg|]; assumption.
Qed.

End FloatFacts.

Module Facts.

Import PyFloat App Fields Rules FloatFacts.

Lemma err_msgs_of_error (ms : list string) :
  err_msgs_of (List.map error ms) = ms.
Proof.
  induction ms as [|m ms IH]; [done|].
  unfold err_msgs_of in *. simpl. by rewrite IH.
Qed.

Lemma floats_of_nil_inv (toks : list string) :
  floats_of toks = Some [] -> toks = [].
Proof.
  intros H. apply length_mapM in H. by destruct toks.
Qed.

Lemma floats_of_nonempty (toks : list string) (vals : list float) :
  floats_of toks = Some vals -> nonempty vals = nonempty toks.
Proof.
  intros H. apply length_mapM in H. by destruct toks, vals.
Qed.

(** The local variables of the handler, field by field. *)
Lemma parse_eq (form : gmap string string) :
  do_POST_parse form =
  {| l_messages := List.map error (village_errs form ++ milk_errs form
                                   ++ dist_errs form ++ capacity_errs form);
     l_villages := villages_of form;
     l_milk_data := milk_values form;
     l_distances := distance_values form;
     l_vehicle_capacity := capacity_value_of form |}.
Proof.
  unfold do_POST_parse, village_errs, milk_errs, dist_errs, capacity_errs,
    milk_values, distance_values, capacity_value_of, broadcasts, dist_blank,
    capacity_text, villages_of, milk_tokens_of, dist_tokens_of.
  set (vs := PyStr.tokens (form_get form "villages")).
  set (mt := PyStr.tokens (form_get form "milk_data")).
  set (dt := PyStr.tokens (form_get form "distances")).
  set (db := PyStr.truthy (PyStr.strip (form_get form "distances"))).
  set (ct := PyStr.strip (form_get form "capacity")).
  clearbody vs mt dt db ct.
  destruct ct as [|c0 ct'];
    [|destruct (of_string (String c0 ct')) as [c|]; [destruct (leb c zero)|]].
  all: destruct db; cbn [negb];
    [destruct (floats_of dt) as [dv|];
      [destruct (length dv =? length vs)%nat|]|].
  all: destruct mt as [|t mt'];
    [|destruct (floats_of (t :: mt')) as [[|x mv]|] eqn:Hmv;
      [apply floats_of_nil_inv in Hmv; discriminate| |]].
  all: destruct vs as [|v vs']; cbn [nonempty andb negb app List.map floats_of mapM mret option_ret].
  all: try reflexivity.
  all: destruct (length (x :: mv) =? 1)%nat;
    destruct (1 <? length (v :: vs'))%nat;
    destruct (length (x :: mv) =? length (v :: vs'))%nat;
    reflexivity.
Qed.

Lemma errors_eq (form : gmap string string) :
  errors form =
  village_errs form ++ milk_errs form ++ dist_errs form ++ capacity_errs form.
Proof. unfold errors. rewrite parse_eq. apply err_msgs_of_error. Qed.

Lemma In_errors (form : gmap string string) (m : string) :
  In m (errors form) <->
  In m (village_errs form) \/ In m (milk_errs form)
  \/ In m (dist_errs form) \/ In m (capacity_errs form).
Proof. rewrite errors_eq, !in_app_iff. tauto. Qed.

Lemma valid_pieces (form : gmap string string) :
  errors form = [] ->
  village_errs form = [] /\ milk_errs form = [] /\
  dist_errs form = [] /\ capacity_errs form = [].
Proof.
  rewrite errors_eq. intros H.
  apply app_eq_nil in H as [H1 H]. apply app_eq_nil in H as [H2 H].
  apply app_eq_nil in H as [H3 H4]. auto.
Qed.

(** What the handler passes to [render_page] when a rule failed. *)
Lemma args_rejected (form : gmap string string) :
  errors form <> [] ->
  do_POST_args form =
  {| result := false; villages_list := None; predictions := None;
     route := None; total_distance := None; capacity := None;
     capacity_ok := None; total_predicted := None;
     form_values := Some form;
     messages := Some (List.map error (errors form)) |}.
Proof.
  intros H. unfold do_POST_args. fold (errors form).
  destruct (errors form); [congruence|reflexivity].
Qed.

(** What the handler passes to [render_page] when no rule failed. *)
Lemma args_accepted (form : gmap string string) :
  errors form = [] ->
  do_POST_args form =
  let preds := predict_supply (l_milk_data (do_POST_parse form)) in
  let total := round2 (sum preds) in
  {| result := true;
     villages_list := Some (l_villages (do_POST_parse form));
     predictions := Some preds;
     route := Some (l_villages (do_POST_parse form));
     total_distance :=
       (fun ds => round2 (sum ds)) <$> l_distances (do_POST_parse form);
     capacity := l_vehicle_capacity (do_POST_parse form);
     capacity_ok :=
       (fun c => geb c total) <$> l_vehicle_capacity (do_POST_parse form);
     total_predicted := Some total;
     form_values := Some form;
     messages := Some [("success", MSG_SUCCESS)] |}.
Proof.
  intros H. unfold do_POST_args. fold (errors form). rewrite H.
  cbn [nonempty]. unfold optimize_route.
  destruct (l_distances (do_POST_parse form));
    destruct (l_vehicle_capacity (do_POST_parse form)); reflexivity.
Qed.

Lemma list_mul_singleton {A} (x : A) (n : nat) :
  list_mul [x] n = replicate n x.
Proof.
  unfold list_mul. induction n as [|n IH]; [done|]. simpl. by rewrite IH.
Qed.

Lemma floats_of_replicate (t : string) (v : float) (n : nat) :
  of_string t = Some v -> floats_of (replicate n t) = Some (replicate n v).
Proof.
  intros H. unfold floats_of. apply mapM_Some.
  induction n as [|n IH]; simpl; constructor; assumption.
Qed.

Lemma nonempty_true {A} (l : list A) : nonempty l = true <-> l <> [].
Proof. destruct l; simpl; split; congruence. Qed.

Lemma nonempty_false {A} (l : list A) : nonempty l = false <-> l = [].
Proof. destruct l; simpl; split; congruence. Qed.

Lemma broadcasts_spec (vals : list float) (n : nat) :
  broadcasts vals n = true <-> length vals = 1%nat /\ (1 < n)%nat.
Proof.
  unfold broadcasts. rewrite andb_true_iff, Nat.eqb_eq, Nat.ltb_lt. tauto.
Qed.

(** The parsed fields of a submission that passes validation. *)
Lemma accepted_fields (form : gmap string string) :
  errors form = [] ->
  villages_of form <> [] /\
  (exists vals, floats_of (milk_tokens_of form) = Some vals /\ vals <> [] /\
     milk_values form =
       (if broadcasts vals (length (villages_of form))
        then list_mul vals (length (villages_of form)) else vals)) /\
  length (milk_values form) = length (villages_of form) /\
  (dist_blank form = true \/
   exists ds, floats_of (dist_tokens_of form) = Some ds /\
     length ds = length (villages_of form)) /\
  (capacity_text form = "" \/
   exists c, of_string (capacity_text form) = Some c /\ leb c zero = false).
Proof.
  intros H. apply valid_pieces in H as (Hv & Hm & Hd & Hc).
  unfold village_errs in Hv. unfold milk_errs in Hm.
  unfold dist_errs in Hd. unfold capacity_errs in Hc. unfold milk_values.
  destruct (nonempty (villages_of form)) eqn:Ev; [|discriminate].
  apply nonempty_true in Ev.
  destruct (milk_tokens_of form) as [|t mt] eqn:Emt; [discriminate|].
  destruct (floats_of (t :: mt)) as [vals|] eqn:Ef; [|discriminate].
  assert (Hvals : vals <> []).
  { intros ->. apply floats_of_nil_inv in Ef. discriminate. }
  cbn [andb negb] in Hm |- *.
  repeat split; [exact Ev| | | |].
  - exists vals. auto.
  - destruct (broadcasts vals (length (villages_of form))) eqn:Eb.
    + apply broadcasts_spec in Eb as [E1 _].
      destruct vals as [|v [|? ?]]; try discriminate.
      rewrite list_mul_singleton. apply length_replicate.
    + cbn [negb andb] in Hm.
      destruct (length vals =? length (villages_of form))%nat eqn:El;
        [|discriminate]. by apply Nat.eqb_eq.
  - destruct (dist_blank form); [by left|right].
    destruct (floats_of (dist_tokens_of form)) as [ds|]; [|discriminate].
    exists ds. split; [done|].
    destruct (length ds =? length (villages_of form))%nat eqn:El;
      [|discriminate]. by apply Nat.eqb_eq.
  - destruct (capacity_text form) as [|c0 ct]; [by left|right].
    destruct (of_string (String c0 ct)) as [c|]; [|discriminate].
    exists c. split; [done|]. by destruct (leb c zero).
Qed.

Lemma form_get_insert (form : gmap string string) (k k' x : string) :
  form_get (<[k := x]> form) k' = if decide (k = k') then x else form_get form k'.
Proof.
  unfold form_get. rewrite lookup_insert. by case_decide.
Qed.

(** The handler reads the form only through its parsed fields, except for
    the values it echoes. *)
Lemma args_same_parse (f1 f2 : gmap string string) :
  do_POST_parse f1 = do_POST_parse f2 ->
  result_section (do_POST f1) = result_section (do_POST f2) /\
  predictions (do_POST_args f1) = predictions (do_POST_args f2) /\
  total_predicted (do_POST_args f1) = total_predicted (do_POST_args f2) /\
  capacity_ok (do_POST_args f1) = capacity_ok (do_POST_args f2) /\
  messages (do_POST_args f1) = messages (do_POST_args f2).
Proof.
  intros H. unfold do_POST, do_POST_args. rewrite H.
  destruct (nonempty (err_msgs_of (l_messages (do_POST_parse f2))));
    [by cbn|].
  destruct (optimize_route _ _) as [r d]. by cbn.
Qed.

(** *** Which message comes from which rule *)

Lemma In_village_errs (form : gmap string string) (m : string) :
  In m (village_errs form) <-> m = MSG_NO_VILLAGE /\ no_village form.
Proof.
  unfold village_errs, no_village.
  destruct (villages_of form); simpl; intuition congruence.
Qed.

Lemma In_milk_errs (form : gmap string string) (m : string) :
  In m (milk_errs form) <->
  (m = MSG_NO_MILK /\ no_milk form)
  \/ (m = MSG_MILK_NUMBERS /\ milk_not_numbers form)
  \/ (m = MSG_MILK_COUNT /\ milk_count_mismatch form).
Proof.
  unfold milk_errs, no_milk, milk_not_numbers, milk_count_mismatch, bad_number.
  destruct (milk_tokens_of form) as [|t mt] eqn:Et.
  { simpl. split; [intros [<-|[]]; by left|].
    intros [[-> _]|[[_ H]|[_ (_ & vals & Hf & Hne & _)]]].
    - by left.
    - by apply Exists_nil in H.
    - change (Some [] = Some vals) in Hf. congruence. }
  destruct (floats_of (t :: mt)) as [vals|] eqn:Ef.
  - assert (Hne : vals <> []).
    { intros ->. apply floats_of_nil_inv in Ef. discriminate. }
    assert (Hok : ~ Exists (fun t => of_string t = None) (t :: mt)).
    { intros H. apply mapM_None in H. unfold floats_of in Ef. congruence. }
    destruct (nonempty (villages_of form)) eqn:Ev; cbn [andb].
    + apply nonempty_true in Ev.
      destruct (broadcasts vals (length (villages_of form))) eqn:Eb;
        cbn [negb andb].
      * apply broadcasts_spec in Eb. split; [intros []|].
        intros [[_ H]|[[_ H]|[_ (_ & vals' & Hf & _ & Hnb & _)]]];
          [discriminate|contradiction|]. congruence.
      * assert (Hnb : ~ (length vals = 1%nat /\
                         (1 < length (villages_of form))%nat)).
        { rewrite <- broadcasts_spec. congruence. }
        destruct (length vals =? length (villages_of form))%nat eqn:El;
          cbn [negb].
        -- apply Nat.eqb_eq in El. split; [intros []|].
           intros [[_ H]|[[_ H]|[_ (_ & vals' & Hf & _ & _ & Hl)]]];
             [discriminate|contradiction|]. congruence.
        -- apply Nat.eqb_neq in El. split.
           ++ intros [<-|[]]. right. right. split; [done|].
              split; [done|]. exists vals. auto.
           ++ intros [[_ H]|[[_ H]|[-> _]]];
                [discriminate|contradiction|by left].
    + apply nonempty_false in Ev. split; [intros []|].
      intros [[_ H]|[[_ H]|[_ (H & _)]]];
        [discriminate|contradiction|contradiction].
  - assert (Hbad : Exists (fun t => of_string t = None) (t :: mt)).
    { by apply mapM_None. }
    split.
    + intros [<-|[]]. right. left. by split.
    + intros [[_ H]|[[-> _]|[_ (_ & vals & Hf & _)]]];
        [discriminate|by left|discriminate].
Qed.

Lemma dist_blank_false (form : gmap string string) :
  dist_blank form = false <-> PyStr.strip (form_get form "distances") <> "".
Proof.
  unfold dist_blank.
  destruct (PyStr.strip (form_get form "distances")); simpl;
    split; congruence.
Qed.

Lemma In_dist_errs (form : gmap string string) (m : string) :
  In m (dist_errs form) <->
  (m = MSG_DIST_NUMBERS /\ dist_not_numbers form)
  \/ (m = MSG_DIST_COUNT /\ dist_count_mismatch form).
Proof.
  unfold dist_errs, dist_not_numbers, dist_count_mismatch, bad_number.
  rewrite <- dist_blank_false.
  destruct (dist_blank form); [simpl; intuition congruence|].
  destruct (floats_of (dist_tokens_of form)) as [vals|] eqn:Ef.
  - assert (Hok : ~ Exists (fun t => of_string t = None) (dist_tokens_of form)).
    { intros H. apply mapM_None in H. unfold floats_of in Ef. congruence. }
    destruct (length vals =? length (villages_of form))%nat eqn:El.
    + apply Nat.eqb_eq in El. split; [intros []|].
      intros [[_ [_ H]]|[_ (_ & vals' & Hf & Hl)]]; [contradiction|].
      congruence.
    + apply Nat.eqb_neq in El. split.
      * intros [<-|[]]. right. split; [done|]. split; [done|].
        exists vals. auto.
      * intros [[_ [_ H]]|[-> _]]; [contradiction|by left].
  - assert (Hbad : Exists (fun t => of_string t = None) (dist_tokens_of form)).
    { by apply mapM_None. }
    split.
    + intros [<-|[]]. left. auto.
    + intros [[-> _]|[_ (_ & vals & Hf & _)]]; [by left|discriminate].
Qed.

Lemma In_capacity_errs (form : gmap string string) (m : string) :
  In m (capacity_errs form) <-> m = MSG_CAPACITY /\ capacity_test_fails form.
Proof.
  unfold capacity_errs, capacity_test_fails.
  destruct (capacity_text form) as [|c0 r]; [simpl; intuition congruence|].
  destruct (of_string (String c0 r)) as [c|].
  - destruct (leb c zero) eqn:El.
    + split.
      * intros [<-|[]]. split; [done|]. split; [done|]. right. eauto.
      * intros [-> _]. by left.
    + split; [intros []|]. intros [_ [_ [H|(c' & Hc & Hl)]]]; congruence.
  - split.
    + intros [<-|[]]. split; [done|]. split; [done|]. by left.
    + intros [-> _]. by left.
Qed.

(** Apart from NaN, "not strictly positive" and "[<= 0]" are the same. *)
Lemma not_positive_iff (c : float) :
  c <> S754_nan -> (ltb zero c = false <-> leb c zero = true).
Proof.
  intros Hc. destruct c as [s|s| |s m e]; try congruence;
    try destruct s; vm_compute; split; congruence.
Qed.

(** The handler's capacity test fails exactly when rule 5 fails and the
    capacity is not NaN. *)
Lemma capacity_test_vs_rule (form : gmap string string) :
  capacity_test_fails form <->
  capacity_not_positive form /\ of_string (capacity_text form) <> Some S754_nan.
Proof.
  unfold capacity_test_fails, capacity_not_positive.
  destruct (of_string (capacity_text form)) as [c|].
  - split.
    + intros (Hb & [H|(c' & [= <-] & Hl)]); [discriminate|].
      assert (Hc : c <> S754_nan) by (intros ->; discriminate).
      split; [split; [exact Hb|]|congruence].
      intros (c' & [= <-] & Hp). apply (not_positive_iff c Hc) in Hl.
      congruence.
    + intros ((Hb & Hn) & Hc). split; [exact Hb|]. right. exists c.
      split; [reflexivity|].
      apply (not_positive_iff c); [congruence|].
      destruct (ltb zero c) eqn:E; [|reflexivity].
      exfalso. apply Hn. eauto.
  - split.
    + intros (Hb & _). split; [split; [exact Hb|]|discriminate].
      intros (c & Hc & _). discriminate.
    + intros ((Hb & _) & _). split; [exact Hb|by left].
Qed.

(** Each message is raised exactly when its own rule fails, whatever the
    other rules do; for rule 5 this holds unless the capacity is NaN, which
    the handler's test lets through. *)
Lemma messages_by_rule (form : gmap string string) :
  (In MSG_NO_VILLAGE (errors form) <-> no_village form) /\
  (In MSG_NO_MILK (errors form) <-> no_milk form) /\
  (In MSG_MILK_NUMBERS (errors form) <-> milk_not_numbers form) /\
  (In MSG_MILK_COUNT (errors form) <-> milk_count_mismatch form) /\
  (In MSG_DIST_NUMBERS (errors form) <-> dist_not_numbers form) /\
  (In MSG_DIST_COUNT (errors form) <-> dist_count_mismatch form) /\
  (In MSG_CAPACITY (errors form) <->
   capacity_not_positive form /\
   of_string (capacity_text form) <> Some S754_nan).
Proof.
  rewrite <- capacity_test_vs_rule.
  repeat match goal with |- _ /\ _ => split end; split; intros H.
  all: try (apply In_errors in H;
            rewrite In_village_errs, In_milk_errs, In_dist_errs,
              In_capacity_errs in H;
            intuition discriminate).
  all: apply In_errors;
    rewrite In_village_errs, In_milk_errs, In_dist_errs, In_capacity_errs;
    tauto.
Qed.

Lemma predict_supply_nonneg (milk : list float) :
  Forall nonneg (predict_supply milk).
Proof.
  unfold predict_supply. induction milk as [|v milk IH]; simpl.
  - constructor.
  - constructor; [apply round2_nonneg, max_zero_nonneg | exact IH].
Qed.

(** The milk errors depend on the milk values only through their number. *)
Lemma milk_errs_same_count (f1 f2 : gmap string string)
    (vals1 vals2 : list float) :
  villages_of f1 = villages_of f2 ->
  floats_of (milk_tokens_of f1) = Some vals1 ->
  floats_of (milk_tokens_of f2) = Some vals2 ->
  length vals1 = length vals2 ->
  milk_errs f1 = milk_errs f2.
Proof.
  intros Hv H1 H2 Hl. unfold milk_errs, broadcasts. rewrite Hv.
  pose proof (floats_of_nonempty _ _ H1) as N1.
  pose proof (floats_of_nonempty _ _ H2) as N2.
  destruct (milk_tokens_of f1) as [|t1 m1], (milk_tokens_of f2) as [|t2 m2],
    vals1 as [|v1 r1], vals2 as [|v2 r2]; try discriminate; try reflexivity.
  by rewrite H1, H2, Hl.
Qed.

End Facts.

(** ** The scenarios of the specification, evaluated *)

Module ScenarioChecks.

Import PyFloat App Scenarios.

(** Scenario A: predictions [105.0, 210.0], total 315.0. *)
Example scenario_A_result :
  Some <$> predictions (do_POST_args scenario_A)
  = Some (mapM of_string ["105.0"; "210.0"]) /\
  Some <$> total_predicted (do_POST_args scenario_A) = Some (of_string "315.0").
Proof. vm_compute. auto. Qed.

(** Scenario B: the single value 50 is broadcast to three villages. *)
Example scenario_B_result :
  Some (l_milk_data (do_POST_parse scenario_B))
  = mapM of_string ["50"; "50"; "50"] /\
  Some <$> predictions (do_POST_args scenario_B)
  = Some (mapM of_string ["52.5"; "52.5"; "52.5"]).
Proof. vm_compute. auto. Qed.

(** Scenario C: total distance 13.0. *)
Example scenario_C_result :
  Some <$> total_distance (do_POST_args scenario_C) = Some (of_string "13.0").
Proof. vm_compute. auto. Qed.

(** Scenario E: no village, no result. *)
Example scenario_E_result :
  errors scenario_E = [MSG_NO_VILLAGE] /\
  result_section (do_POST scenario_E) = None.
Proof. vm_compute. auto. Qed.

(** Scenario F: a milk token that is not a number. *)
Example scenario_F_result :
  errors (form_of "A,B" "abc,200" "" "") = [MSG_MILK_NUMBERS].
Proof. vm_compute. auto. Qed.

(** Rounding goes to the nearest two-digit decimal of the exact binary
    value, ties to even: [round(2.675, 2) = 2.67], [round(0.125, 2) = 0.12]
    and [round(0.375, 2) = 0.38]. *)
Example round2_samples :
  round2 <$> of_string "2.675" = of_string "2.67" /\
  round2 <$> of_string "0.125" = of_string "0.12" /\
  round2 <$> of_string "0.375" = of_string "0.38".
Proof. vm_compute. auto. Qed.

(** What [float] accepts and refuses. *)
Example float_samples :
  of_string "1_000.5e-3" = of_string "1.0005" /\
  of_string "-Infinity" = Some (S754_infinity true) /\
  of_string "NaN" = Some S754_nan /\
  of_string "1e400" = Some (S754_infinity false) /\
  of_string "abc" = None /\ of_string "1e" = None /\ of_string "." = None /\
  of_string "1__0" = None /\ of_string "0x10" = None /\ of_string "1 2" = None.
Proof. vm_compute. repeat split. Qed.

End ScenarioChecks.

(** ** The properties of the specification *)

Module Claims.

Import PyFloat App Fields Rules Scenarios FloatFacts Facts.

(** C1. For a submission that passes validation, the village list is not
    empty, there is one milk value per village (after the broadcast
    step), and the i-th prediction is
    [round(max(0.0, milk_data[i] * 1.05), 2)], for every index i; the
    page lists each village next to its prediction. *)
Theorem predictions_formula (form : gmap string string) :
  errors form = [] ->
  let st := do_POST_parse form in
  l_villages st <> [] /\
  length (l_milk_data st) = length (l_villages st) /\
  exists preds,
    predictions (do_POST_args form) = Some preds /\
    length preds = length (l_villages st) /\
    (forall (i : nat) (v : float),
        l_milk_data st !! i = Some v ->
        preds !! i = Some (round2 (max zero (mul v c1_05)))) /\
    items <$> result_section (do_POST form) = Some (zip (l_villages st) preds).
Proof.
  intros H st. pose proof (accepted_fields form H) as (Hv & _ & Hlen & _).
  unfold do_POST. rewrite (args_accepted form H). subst st.
  rewrite parse_eq. cbn [l_villages l_milk_data].
  split; [exact Hv|]. split; [exact Hlen|].
  exists (predict_supply (milk_values form)). cbn.
  split; [reflexivity|]. unfold predict_supply.
  split; [by rewrite length_map|]. split; [|reflexivity].
  intros i v Hi. change (List.map ?f ?l) with (f <$> l).
  by rewrite list_lookup_fmap, Hi.
Qed.

Lemma predictions_formula_witness :
  errors scenario_A = [] /\
  exists preds,
    predictions (do_POST_args scenario_A) = Some preds /\
    preds !! 1%nat
    = Some (round2 (max zero (mul (S754_finite false 7036874417766400 (-45)) c1_05))).
Proof.
  assert (H : errors scenario_A = []) by (vm_compute; reflexivity).
  split; [exact H|].
  destruct (predictions_formula scenario_A H) as (_ & _ & p & Hp & _ & Hi & _).
  exists p. split; [exact Hp|]. apply Hi. vm_compute. reflexivity.
Defined.

(** C2. Broadcast law: with more than one village, submitting a single
    milk value gives the same errors and the same computed results
    (predictions, total, capacity verdict, result section of the page) as
    submitting that value once per village. *)
Theorem broadcast_law (form : gmap string string) (t milk_n : string)
    (v : float) :
  let n := length (villages_of form) in
  (1 < n)%nat ->
  milk_tokens_of form = [t] ->
  of_string t = Some v ->
  PyStr.tokens milk_n = replicate n t ->
  let form_n := <["milk_data" := milk_n]> form in
  l_milk_data (do_POST_parse form) = replicate n v /\
  l_milk_data (do_POST_parse form_n) = replicate n v /\
  errors form_n = errors form /\
  predictions (do_POST_args form_n) = predictions (do_POST_args form) /\
  total_predicted (do_POST_args form_n) = total_predicted (do_POST_args form) /\
  capacity_ok (do_POST_args form_n) = capacity_ok (do_POST_args form) /\
  result_section (do_POST form_n) = result_section (do_POST form).
Proof.
  intros n Hn Ht Hv Htn form_n.
  assert (Hvil : villages_of form_n = villages_of form).
  { unfold villages_of, form_n. by rewrite form_get_insert. }
  assert (Hmt : milk_tokens_of form_n = replicate n t).
  { unfold milk_tokens_of, form_n. by rewrite form_get_insert. }
  assert (Hne : nonempty (villages_of form) = true).
  { apply nonempty_true. intros E. subst n. rewrite E in Hn. simpl in Hn. lia. }
  assert (Hf1 : floats_of [t] = Some [v]).
  { apply (floats_of_replicate t v 1 Hv). }
  assert (Hb1 : broadcasts [v] n = true).
  { apply broadcasts_spec. by split. }
  assert (Hbn : broadcasts (replicate n v) n = false).
  { apply not_true_is_false. rewrite broadcasts_spec, length_replicate. lia. }
  assert (Hm1 : milk_values form = replicate n v).
  { unfold milk_values. rewrite Ht, Hf1, Hne. fold n. rewrite Hb1.
    apply list_mul_singleton. }
  assert (Hmn : milk_values form_n = replicate n v).
  { unfold milk_values. rewrite Hmt, Hvil, (floats_of_replicate t v n Hv).
    fold n. by rewrite Hbn, andb_false_r. }
  assert (Hme : milk_errs form_n = milk_errs form).
  { unfold milk_errs. rewrite Hmt, Hvil, Ht, Hf1. fold n. rewrite Hb1, Hne.
    destruct n as [|n'] eqn:En; [lia|].
    change (replicate (S n') t) with (t :: replicate n' t).
    cbv iota. change (t :: replicate n' t) with (replicate (S n') t).
    rewrite (floats_of_replicate t v (S n') Hv), length_replicate.
    by rewrite Nat.eqb_refl, andb_false_r. }
  assert (Hparse : do_POST_parse form_n = do_POST_parse form).
  { rewrite !parse_eq. unfold village_errs, dist_errs, capacity_errs,
      distance_values, capacity_value_of, dist_blank, dist_tokens_of,
      capacity_text.
    rewrite Hvil, Hme, Hmn, Hm1. unfold form_n. by rewrite !form_get_insert. }
  split; [by rewrite parse_eq|]. split; [by rewrite parse_eq|].
  split; [unfold errors; by rewrite Hparse|].
  destruct (args_same_parse form_n form Hparse) as (? & ? & ? & ? & _).
  auto.
Qed.

Lemma broadcast_law_witness :
  PyStr.tokens "50, 50, 50" = ["50"; "50"; "50"] /\
  predictions (do_POST_args scenario_B3) = predictions (do_POST_args scenario_B).
Proof.
  split; [vm_compute; reflexivity|].
  apply (broadcast_law scenario_B "50" "50, 50, 50"
           (S754_finite false 7036874417766400 (-47))).
  - vm_compute. lia.
  - vm_compute. reflexivity.
  - vm_compute. reflexivity.
  - vm_compute. reflexivity.
Defined.

(** C3. When validation produces an error, nothing is computed:
    [render_page] is called with [result=False], the form values and the
    error messages, every other argument left out; the page shows one
    alert per error and the echoed fields, and has no result section. *)
Theorem errors_block_result (form : gmap string string) :
  errors form <> [] ->
  do_POST_args form =
    {| result := false; villages_list := None; predictions := None;
       route := None; total_distance := None; capacity := None;
       capacity_ok := None; total_predicted := None;
       form_values := Some form;
       messages := Some (List.map error (errors form)) |} /\
  do_POST form =
    {| messages_html := List.map (fun m => ("alert", m)) (errors form);
       villages_value := form_get form "villages";
       milk_data_value := form_get form "milk_data";
       distances_value := form_get form "distances";
       capacity_value := form_get form "capacity";
       result_section := None |}.
Proof.
  intros H. split; [by apply args_rejected|].
  unfold do_POST. rewrite (args_rejected form H).
  unfold render_page. cbn. f_equal.
  unfold make_messages_html. rewrite List.map_map. reflexivity.
Qed.

Lemma errors_block_result_witness :
  errors scenario_E = [MSG_NO_VILLAGE] /\
  result_section (do_POST scenario_E) = None /\
  predictions (do_POST_args scenario_E) = None.
Proof.
  assert (H : errors scenario_E <> []) by (vm_compute; discriminate).
  destruct (errors_block_result scenario_E H) as [Ha Hp].
  split; [vm_compute; reflexivity|].
  split; [by rewrite Hp | by rewrite Ha].
Defined.

(** C6. For a submission that passes validation, the total distance is
    absent when the distances field is blank, and is
    [round(sum(distances), 2)] of the parsed distances otherwise. *)
Theorem total_distance_spec (form : gmap string string) :
  errors form = [] ->
  (PyStr.strip (form_get form "distances") = "" ->
     l_distances (do_POST_parse form) = None /\
     total_distance (do_POST_args form) = None /\
     total_distance_html <$> result_section (do_POST form) = Some None) /\
  (PyStr.strip (form_get form "distances") <> "" ->
     exists ds,
       floats_of (PyStr.tokens (form_get form "distances")) = Some ds /\
       l_distances (do_POST_parse form) = Some ds /\
       total_distance (do_POST_args form) = Some (round2 (sum ds)) /\
       total_distance_html <$> result_section (do_POST form)
       = Some (Some (round2 (sum ds)))).
Proof.
  intros H. pose proof (accepted_fields form H) as (_ & _ & _ & Hd & _).
  unfold do_POST. rewrite (args_accepted form H), parse_eq.
  cbn [l_distances]. cbv zeta. unfold render_page.
  cbn [result total_distance fmap option_fmap option_map total_distance_html].
  unfold distance_values, dist_blank in *. split; intros Hb.
  - rewrite Hb. cbn. auto.
  - destruct (PyStr.strip (form_get form "distances")) as [|c0 r];
      [congruence|]. cbn [PyStr.truthy negb] in Hd |- *.
    destruct Hd as [Hd|(ds & Hds & Hlen)]; [discriminate|].
    exists ds. fold (dist_tokens_of form). rewrite Hds.
    apply Nat.eqb_eq in Hlen. rewrite Hlen. cbn. auto.
Qed.

Lemma total_distance_spec_witness :
  errors scenario_C = [] /\
  PyStr.strip (form_get scenario_C "distances") <> "" /\
  exists ds,
    l_distances (do_POST_parse scenario_C) = Some ds /\
    total_distance (do_POST_args scenario_C) = Some (round2 (sum ds)).
Proof.
  assert (H : errors scenario_C = []) by (vm_compute; reflexivity).
  assert (Hb : PyStr.strip (form_get scenario_C "distances") <> "")
    by (vm_compute; discriminate).
  split; [exact H|]. split; [exact Hb|].
  destruct (proj2 (total_distance_spec scenario_C H) Hb) as (ds & _ & H1 & H2 & _).
  exists ds. auto.
Defined.

(** C8. For a submission that passes validation, the route is the parsed
    village sequence itself, in input order, both as passed to the page and
    as listed on it; [optimize_route] returns its first argument for every
    input. *)
Theorem route_is_villages (form : gmap string string) :
  errors form = [] ->
  (forall (vs : list string) (ds : option (list float)),
      fst (optimize_route vs ds) = vs) /\
  l_villages (do_POST_parse form) = PyStr.tokens (form_get form "villages") /\
  route (do_POST_args form) = Some (PyStr.tokens (form_get form "villages")) /\
  route_html <$> result_section (do_POST form)
  = Some (PyStr.tokens (form_get form "villages")).
Proof.
  intros H. split; [intros vs [ds|]; reflexivity|].
  unfold do_POST. rewrite (args_accepted form H), parse_eq.
  cbn. auto.
Qed.

Lemma route_is_villages_witness :
  errors scenario_C = [] /\
  route (do_POST_args scenario_C) = Some ["A"; "B"].
Proof.
  assert (H : errors scenario_C = []) by (vm_compute; reflexivity).
  split; [exact H|].
  destruct (route_is_villages scenario_C H) as (_ & _ & Hr & _).
  rewrite Hr. vm_compute. reflexivity.
Defined.

(** C4. The errors of several rules are returned together, but not the
    error of every rule that fails: with an empty villages field, a milk
    token that is not a number and the capacity "nan", rules 1, 2 and 5
    fail (NaN is a float that is not strictly positive) and only the
    messages of rules 1 and 2 are returned; the handler's test
    [vehicle_capacity <= 0] does not hold for NaN. *)
Theorem capacity_nan_not_collected :
  let form := form_of "" "abc" "" "nan" in
  no_village form /\ milk_not_numbers form /\ capacity_not_positive form /\
  errors form = [MSG_NO_VILLAGE; MSG_MILK_NUMBERS] /\
  ~ In MSG_CAPACITY (errors form).
Proof.
  intros form.
  assert (He : errors form = [MSG_NO_VILLAGE; MSG_MILK_NUMBERS])
    by (vm_compute; reflexivity).
  destruct (messages_by_rule form) as (H1 & _ & H3 & _).
  split; [apply H1; rewrite He; simpl; auto|].
  split; [apply H3; rewrite He; simpl; auto|].
  split; [|split; [exact He|]].
  - split; [vm_compute; discriminate|].
    intros (c & Hc & Hp). vm_compute in Hc. injection Hc as <-.
    discriminate.
  - rewrite He. simpl. intuition discriminate.
Qed.

(** C5. The capacity "nan" is accepted: it is a float, it is not strictly
    positive (no comparison with NaN holds), and the handler's test
    [vehicle_capacity <= 0] does not reject it; the result is computed
    with a NaN capacity and reads "Insufficient". *)
Theorem capacity_nan_accepted :
  let form := form_of "A" "100" "" "nan" in
  of_string (PyStr.strip (form_get form "capacity")) = Some S754_nan /\
  ltb zero S754_nan = false /\
  ~ In MSG_CAPACITY (errors form) /\
  errors form = [] /\
  capacity (do_POST_args form) = Some S754_nan /\
  capacity_ok (do_POST_args form) = Some false.
Proof.
  vm_compute. repeat split; try reflexivity. intros [].
Qed.

(** C7. For a submission that passes validation, the total is
    [round(sum(predictions), 2)]; the capacity verdict is absent when the
    capacity field is blank, and is [capacity >= total_predicted] for the
    parsed capacity otherwise.  Villages "A", milk 100 and capacity 90
    give the verdict [False]. *)
Theorem capacity_verdict :
  (forall form : gmap string string,
      errors form = [] ->
      exists preds total,
        predictions (do_POST_args form) = Some preds /\
        total = round2 (sum preds) /\
        total_predicted (do_POST_args form) = Some total /\
        (PyStr.strip (form_get form "capacity") = "" ->
           l_vehicle_capacity (do_POST_parse form) = None /\
           capacity_ok (do_POST_args form) = None /\
           capacity_html <$> result_section (do_POST form) = Some None) /\
        (PyStr.strip (form_get form "capacity") <> "" ->
           exists c,
             of_string (PyStr.strip (form_get form "capacity")) = Some c /\
             l_vehicle_capacity (do_POST_parse form) = Some c /\
             capacity_ok (do_POST_args form) = Some (geb c total) /\
             capacity_html <$> result_section (do_POST form)
             = Some (Some {| shown_total_predicted := Some total;
                             shown_capacity := c;
                             shown_sufficient := geb c total |}))) /\
  (errors scenario_D = [] /\
   capacity_ok (do_POST_args scenario_D) = Some false).
Proof.
  split; [|vm_compute; auto].
  intros form H. pose proof (accepted_fields form H) as (_ & _ & _ & _ & Hc).
  unfold do_POST. rewrite (args_accepted form H), parse_eq.
  cbn [l_vehicle_capacity l_milk_data]. cbv zeta.
  exists (predict_supply (milk_values form)), 
    (round2 (sum (predict_supply (milk_values form)))).
  unfold render_page.
  cbn [predictions total_predicted capacity_ok capacity result fmap
         option_fmap option_map capacity_html].
  split; [done|]. split; [done|]. split; [done|].
  unfold capacity_value_of, capacity_text in *. split; intros Hb.
  - rewrite Hb. cbn. auto.
  - destruct (PyStr.strip (form_get form "capacity")) as [|c0 r];
      [congruence|].
    destruct Hc as [Hc|(c & Hc & _)]; [discriminate|].
    exists c. rewrite Hc. cbn. auto.
Qed.

Lemma capacity_verdict_witness :
  errors scenario_D = [] /\
  exists preds total,
    predictions (do_POST_args scenario_D) = Some preds /\
    total = round2 (sum preds) /\
    total_predicted (do_POST_args scenario_D) = Some total.
Proof.
  assert (H : errors scenario_D = []) by (vm_compute; reflexivity).
  split; [exact H|].
  destruct (proj1 capacity_verdict scenario_D H) as (p & t & H1 & H2 & H3 & _).
  exists p, t. auto.
Defined.

(** C10. When the villages field yields no name while the distances field
    is not blank and all its tokens are numbers, the village error is
    raised, and the distance count error is raised as well exactly when
    there is at least one distance token: the count is compared with the
    empty village list. *)
Theorem empty_villages_distance_count (form : gmap string string)
    (ds : list float) :
  PyStr.tokens (form_get form "villages") = [] ->
  PyStr.strip (form_get form "distances") <> "" ->
  floats_of (PyStr.tokens (form_get form "distances")) = Some ds ->
  In MSG_NO_VILLAGE (errors form) /\
  (In MSG_DIST_COUNT (errors form)
   <-> PyStr.tokens (form_get form "distances") <> []).
Proof.
  intros Hv Hb Hf.
  split.
  - apply In_errors. left. apply In_village_errs. by split.
  - rewrite In_errors, In_village_errs, In_milk_errs, In_dist_errs,
      In_capacity_errs.
    unfold dist_count_mismatch, dist_tokens_of, villages_of.
    rewrite Hv. cbn [length]. split.
    + intros [[? _]|[[[? _]|[[? _]|[? _]]]|[[[? _]|[_ (_ & vals & Hf' & Hl)]]|[? _]]]];
        try discriminate.
      intros E. rewrite E in Hf'. change (Some [] = Some vals) in Hf'.
      apply Hl. by injection Hf' as <-.
    + intros Hne. right. right. left. right. split; [done|].
      split; [done|]. exists ds. split; [done|].
      intros Hl. destruct ds; [|discriminate].
      by apply floats_of_nil_inv in Hf.
Qed.

Lemma empty_villages_distance_count_witness :
  let form := form_of "" "100" "5, 8" "" in
  PyStr.tokens (form_get form "villages") = [] /\
  In MSG_NO_VILLAGE (errors form) /\ In MSG_DIST_COUNT (errors form).
Proof.
  intros form.
  assert (Hv : PyStr.tokens (form_get form "villages") = [])
    by (vm_compute; reflexivity).
  assert (Hb : PyStr.strip (form_get form "distances") <> "")
    by (vm_compute; discriminate).
  destruct (empty_villages_distance_count form
              [S754_finite false 5629499534213120 (-50);
               S754_finite false 4503599627370496 (-49)] Hv Hb)
    as [H1 H2]; [vm_compute; reflexivity|].
  split; [exact Hv|]. split; [exact H1|].
  apply H2. vm_compute. discriminate.
Defined.

(** C9. No rule looks at the sign of a milk value: replacing the milk
    field by other numbers, as many as before, leaves the errors unchanged,
    and a submission with negative values passes validation.  Every
    prediction is [>= 0] and so is their rounded sum, for every list of
    milk values (negative, infinite or NaN included). *)
Theorem negative_milk_accepted :
  (forall (form : gmap string string) (milk' : string)
          (vals vals' : list float),
      floats_of (PyStr.tokens (form_get form "milk_data")) = Some vals ->
      floats_of (PyStr.tokens milk') = Some vals' ->
      length vals' = length vals ->
      errors (<["milk_data" := milk']> form) = errors form) /\
  errors scenario_negative = [] /\
  (forall milk : list float,
      Forall nonneg (predict_supply milk) /\
      nonneg (round2 (sum (predict_supply milk)))) /\
  (forall form : gmap string string,
      errors form = [] ->
      exists preds total,
        predictions (do_POST_args form) = Some preds /\
        total_predicted (do_POST_args form) = Some total /\
        Forall nonneg preds /\ nonneg total).
Proof.
  split; [|split; [vm_compute; reflexivity|split]].
  - intros form milk' vals vals' Hf Hf' Hl.
    set (form' := <["milk_data" := milk']> form).
    assert (Hv : villages_of form' = villages_of form).
    { unfold villages_of, form'. by rewrite form_get_insert. }
    assert (Hm : milk_errs form' = milk_errs form).
    { apply (milk_errs_same_count form' form vals' vals Hv); [|done|done].
      unfold milk_tokens_of, form'. by rewrite form_get_insert. }
    rewrite !errors_eq. unfold village_errs, dist_errs, capacity_errs,
      dist_blank, dist_tokens_of, capacity_text.
    rewrite Hv, Hm. unfold form'. by rewrite !form_get_insert.
  - intros milk. split; [apply predict_supply_nonneg|].
    apply round2_nonneg, sum_nonneg, predict_supply_nonneg.
  - intros form H. rewrite (args_accepted form H). cbv zeta.
    eexists _, _. split; [reflexivity|]. split; [reflexivity|].
    split; [apply predict_supply_nonneg|].
    apply round2_nonneg, sum_nonneg, predict_supply_nonneg.
Qed.

Lemma negative_milk_accepted_witness :
  errors (<["milk_data" := "-100, -0.5"]> scenario_A) = errors scenario_A /\
  exists preds total,
    predictions (do_POST_args scenario_negative) = Some preds /\
    total_predicted (do_POST_args scenario_negative) = Some total /\
    Forall nonneg preds /\ nonneg total.
Proof.
  destruct negative_milk_accepted as (Hsame & Hneg & _ & Hpos).
  split.
  - apply (Hsame scenario_A "-100, -0.5"
             [S754_finite false 7036874417766400 (-46);
              S754_finite false 7036874417766400 (-45)]
             [S754_finite true 7036874417766400 (-46);
              S754_finite true 4503599627370496 (-53)]);
      vm_compute; reflexivity.
  - apply Hpos, Hneg.
Defined.

End Claims.
(** ** Further properties of the string functions *)

Module StrFacts.

Import PyStr Html Request.

Lemma lstrip_head (sp : ascii -> bool) (s : string) :
  match lstrip_with sp s with
  | EmptyString => True
  | String c _ => sp c = false
  end.
Proof.
  induction s as [|c s IH]; simpl; [exact I|].
  destruct (sp c) eqn:E; [exact IH|exact E].
Qed.

Lemma rstrip_idem (sp : ascii -> bool) (s : string) :
  rstrip_with sp (rstrip_with sp s) = rstrip_with sp s.
Proof.
  induction s as [|c s IH]; simpl; [reflexivity|].
  destruct (rstrip_with sp s) as [|d r] eqn:E.
  - destruct (sp c) eqn:Ec; simpl; [reflexivity|]. by rewrite Ec.
  - simpl in IH |- *. by rewrite IH.
Qed.

Lemma rstrip_keeps_head (sp : ascii -> bool) (c : ascii) (s : string) :
  sp c = false -> exists r, rstrip_with sp (String c s) = String c r.
Proof.
  intros E. simpl. destruct (rstrip_with sp s); [rewrite E|]; eauto.
Qed.

Lemma lstrip_rstrip (sp : ascii -> bool) (s : string) :
  lstrip_with sp (rstrip_with sp (lstrip_with sp s))
  = rstrip_with sp (lstrip_with sp s).
Proof.
  pose proof (lstrip_head sp s) as H.
  destruct (lstrip_with sp s) as [|c u]; [reflexivity|].
  destruct (rstrip_keeps_head sp c u H) as [r ->]. simpl. by rewrite H.
Qed.

(** Stripping twice is stripping once. *)
Lemma strip_idem (s : string) : strip (strip s) = strip s.
Proof.
  unfold strip. by rewrite lstrip_rstrip, rstrip_idem.
Qed.

Lemma lstrip_chars (sp : ascii -> bool) (a : ascii) (s : string) :
  In a (chars (lstrip_with sp s)) -> In a (chars s).
Proof.
  induction s as [|c s IH]; simpl; [tauto|].
  destruct (sp c); simpl; auto.
Qed.

Lemma rstrip_chars (sp : ascii -> bool) (a : ascii) (s : string) :
  In a (chars (rstrip_with sp s)) -> In a (chars s).
Proof.
  induction s as [|c s IH]; simpl; [tauto|].
  destruct (rstrip_with sp s) as [|d r].
  - destruct (sp c); simpl; tauto.
  - simpl in *. tauto.
Qed.

Lemma strip_chars (a : ascii) (s : string) :
  In a (chars (strip s)) -> In a (chars s).
Proof. unfold strip. intros H. by apply rstrip_chars, lstrip_chars in H. Qed.

Lemma split_comma_nonempty (s : string) : split_comma s <> [].
Proof.
  induction s as [|c s IH]; simpl; [discriminate|].
  destruct (Ascii.eqb c ","); [discriminate|].
  destruct (split_comma s); discriminate.
Qed.

Lemma split_comma_no_comma (s f : string) :
  In f (split_comma s) -> ~ In ","%char (chars f).
Proof.
  revert f. induction s as [|c s IH]; intros f; simpl.
  - intros [<-|[]]. simpl. tauto.
  - destruct (Ascii.eqb c ",") eqn:E.
    + intros [<-|H]; [simpl; tauto|by apply IH].
    + destruct (split_comma s) as [|h t]; [intros [<-|[]]|intros [<-|H]].
      * simpl. intros [->|[]]. by rewrite Ascii.eqb_refl in E.
      * simpl. intros [->|H]; [by rewrite Ascii.eqb_refl in E|].
        by apply (IH h); [left|].
      * apply IH. by right.
Qed.

(** Joining the fields of [s.split(",")] with commas gives [s] back. *)
Lemma join_split_comma (s : string) :
  String.concat "," (split_comma s) = s.
Proof.
  induction s as [|c s IH]; [reflexivity|]. simpl.
  pose proof (split_comma_nonempty s) as Hne.
  destruct (Ascii.eqb c ",") eqn:E.
  - apply Ascii.eqb_eq in E. subst c.
    destruct (split_comma s) as [|h t]; [done|].
    simpl in IH |- *. by rewrite IH.
  - destruct (split_comma s) as [|h t]; [done|].
    destruct t as [|h' t']; simpl in IH |- *; by rewrite <- IH.
Qed.

(** [s.split(",")] has one field more than [s] has commas. *)
Lemma length_split_comma (s : string) :
  length (split_comma s) = S (Html.count "," s).
Proof.
  induction s as [|c s IH]; [reflexivity|]. simpl.
  destruct (Ascii.eqb c ","); simpl; [by rewrite IH|].
  pose proof (split_comma_nonempty s) as Hne.
  destruct (split_comma s) as [|h t]; [done|]. exact IH.
Qed.

Lemma split_comma_plain (a : string) :
  ~ In ","%char (chars a) -> split_comma a = [a].
Proof.
  induction a as [|c a IH]; [reflexivity|]. simpl. intros H.
  destruct (Ascii.eqb c ",") eqn:E.
  - apply Ascii.eqb_eq in E. tauto.
  - rewrite IH by tauto. reflexivity.
Qed.

Lemma split_comma_app (a rest : string) :
  ~ In ","%char (chars a) ->
  split_comma (a +:+ String "," rest) = a :: split_comma rest.
Proof.
  induction a as [|c a IH]; [reflexivity|]. simpl. intros H.
  destruct (Ascii.eqb c ",") eqn:E.
  - apply Ascii.eqb_eq in E. tauto.
  - rewrite IH by tauto. reflexivity.
Qed.

Lemma split_comma_concat (names : list string) :
  names <> [] ->
  Forall (fun t => ~ In ","%char (chars t)) names ->
  split_comma (String.concat "," names) = names.
Proof.
  induction names as [|t names IH]; [done|]. intros _ H.
  inversion H as [|? ? Ht Hr]; subst.
  destruct names as [|t' names'].
  - simpl. by apply split_comma_plain.
  - change (String.concat "," (t :: t' :: names'))
      with (t +:+ String "," (String.concat "," (t' :: names'))).
    rewrite split_comma_app by done. by rewrite IH.
Qed.

End StrFacts.

(** ** Properties of the HTML text *)

Module HtmlFacts.

Import App Html StrFacts.

Lemma append_cons (a : ascii) (x y : string) :
  String a x +:+ y = String a (x +:+ y).
Proof. reflexivity. Qed.

Lemma append_assoc (x y z : string) : (x +:+ y) +:+ z = x +:+ (y +:+ z).
Proof.
  induction x as [|a x IH]; [reflexivity|]. by rewrite !append_cons, IH.
Qed.

Lemma replace_app (c : ascii) (r x y : string) :
  replace c r (x +:+ y) = replace c r x +:+ replace c r y.
Proof.
  induction x as [|a x IH]; [reflexivity|]. rewrite append_cons. simpl.
  destruct (Ascii.eqb a c); rewrite IH; [|reflexivity].
  symmetry. apply append_assoc.
Qed.

Lemma escape_app (x y : string) : escape (x +:+ y) = escape x +:+ escape y.
Proof. unfold escape. by rewrite !replace_app. Qed.

Lemma escape_cons (a : ascii) (s : string) :
  escape (String a s) = escape (String a "") +:+ escape s.
Proof. apply (escape_app (String a "") s). Qed.

(** A character that is not special is kept. *)
Lemma escape_plain_char (a : ascii) :
  special a = false -> escape (String a "") = String a "".
Proof.
  destruct a as [[] [] [] [] [] [] [] []]; vm_compute; congruence.
Qed.

(** A special character becomes its entity. *)
Lemma escape_special_char (a : ascii) :
  special a = true ->
  (a = "&"%char /\ escape (String a "") = "&amp;")
  \/ (a = "<"%char /\ escape (String a "") = "&lt;")
  \/ (a = ">"%char /\ escape (String a "") = "&gt;")
  \/ (a = dquote /\ escape (String a "") = "&quot;")
  \/ (a = "'"%char /\ escape (String a "") = "&#x27;").
Proof.
  destruct a as [[] [] [] [] [] [] [] []]; vm_compute; intros H;
    try discriminate; tauto.
Qed.

Lemma count_app (c : ascii) (x y : string) :
  count c (x +:+ y) = (count c x + count c y)%nat.
Proof.
  induction x as [|a x IH]; [reflexivity|]. rewrite append_cons. simpl.
  rewrite IH. lia.
Qed.

Lemma count_escape_char (c a : ascii) :
  Ascii.eqb c "&" = false -> special c = true ->
  count c (escape (String a "")) = 0%nat.
Proof.
  intros Hamp Hc.
  destruct (special a) eqn:Ha.
  - destruct (escape_special_char a Ha)
      as [[_ ->]|[[_ ->]|[[_ ->]|[[_ ->]|[_ ->]]]]];
      destruct (escape_special_char c Hc)
        as [[-> _]|[[-> _]|[[-> _]|[[-> _]|[-> _]]]]];
      try discriminate; reflexivity.
  - rewrite (escape_plain_char a Ha). simpl.
    destruct (Ascii.eqb a c) eqn:E; [|reflexivity].
    apply Ascii.eqb_eq in E. congruence.
Qed.

Lemma count_escape (c : ascii) (s : string) :
  Ascii.eqb c "&" = false -> special c = true -> count c (escape s) = 0%nat.
Proof.
  intros Hamp Hc. induction s as [|a s IH]; [reflexivity|].
  by rewrite escape_cons, count_app, count_escape_char, IH.
Qed.

Lemma count_concat (c : ascii) (sep : string) (l : list string) :
  count c sep = 0%nat ->
  count c (String.concat sep l) = list_sum (List.map (count c) l).
Proof.
  intros Hs. induction l as [|x l IH]; [reflexivity|].
  destruct l as [|y l'].
  - simpl. lia.
  - change (String.concat sep (x :: y :: l'))
      with (x +:+ sep +:+ String.concat sep (y :: l')).
    rewrite !count_app, IH, Hs. simpl. lia.
Qed.

Lemma list_sum_const {A} (f : A -> nat) (k : nat) (l : list A) :
  (forall x, In x l -> f x = k) ->
  list_sum (List.map f l) = (k * length l)%nat.
Proof.
  induction l as [|x l IH]; intros H; simpl; [lia|].
  rewrite IH by (intros; apply H; by right).
  rewrite (H x) by (by left). lia.
Qed.

Lemma class_of_message (msgs : list (string * string)) (cm : string * string) :
  In cm (make_messages_html msgs) ->
  fst cm = "success" \/ fst cm = "alert".
Proof.
  unfold make_messages_html. intros H.
  apply in_map_iff in H as ([typ m] & <- & _). simpl.
  destruct (String.eqb typ "success"); auto.
Qed.

End HtmlFacts.

(** ** Further properties of the float functions *)

Module ShapeFacts.

Import PyFloat FloatShape FloatFacts.

(** Rounding a non-negative mantissa keeps the sign and never gives NaN. *)
Lemma binary_round_aux_sign (s : bool) (m e : Z) (l : location) :
  0 <= m -> has_sign s (binary_round_aux prec emax s m e l).
Proof.
  intros H. unfold binary_round_aux.
  pose proof (shr_fexp_nonneg m e l H) as H1.
  destruct (shr_fexp prec emax m e l) as [mrs' e'] eqn:E1. simpl in H1.
  pose proof (shr_fexp_nonneg _ e' loc_Exact
                (round_nearest_even_nonneg _ (loc_of_shr_record mrs') H1)) as H2.
  destruct (shr_fexp prec emax _ e' loc_Exact) as [mrs'' e''] eqn:E2.
  simpl in H2.
  destruct (shr_m mrs'') as [|p|p]; [reflexivity| |lia].
  destruct (e'' <=? emax - prec); reflexivity.
Qed.

Lemma binary_round_sign (s : bool) (m : positive) (e : Z) :
  has_sign s (binary_round prec emax s m e).
Proof.
  unfold binary_round. destruct (shl_align _ _ _) as [mz ez].
  apply binary_round_aux_sign. lia.
Qed.

(** A decimal numeral is never read as NaN, and keeps its sign. *)
Lemma of_decimal_sign (s : bool) (d e : Z) : has_sign s (of_decimal s d e).
Proof.
  unfold of_decimal. destruct d as [|p|p]; try reflexivity.
  destruct e as [|q|q].
  - destruct s; apply binary_round_sign.
  - destruct s; apply binary_round_sign.
  - unfold SFdiv, SFdiv_core_binary.
    set (m' := match _ - _ with Z0 => Z.pos p | Zpos _ => _ | Zneg _ => 0 end).
    assert (Hm : 0 <= m').
    { subst m'. destruct (_ - _); try lia. apply Z.shiftl_nonneg. lia. }
    pose proof (Z.div_pos m' (Z.pos (10 ^ q)) Hm ltac:(lia)) as Hq.
    unfold Z.div in Hq.
    destruct (Z.div_eucl m' (Z.pos (10 ^ q))) as [k r]. simpl in Hq |- *.
    rewrite xorb_false_r. apply binary_round_aux_sign, Hq.
Qed.

Lemma has_sign_not_nan (s : bool) (x : float) : has_sign s x -> x <> S754_nan.
Proof. intros H ->. exact H. Qed.

Lemma negative_not_positive (x : float) : has_sign true x -> ltb zero x = false.
Proof. destruct x as [s|s| |s m e]; simpl; intros H; subst; try done. Qed.

(** The product with 1.05 of a number that is not greater than zero is not
    greater than zero. *)
Lemma mul_c1_05_not_positive (v : float) :
  ltb zero v = false -> ltb zero (mul v c1_05) = false.
Proof.
  intros H. destruct v as [s|s| |s m e]; try reflexivity.
  - destruct s; [reflexivity|]. vm_compute in H. discriminate.
  - destruct s; [|vm_compute in H; discriminate].
    apply negative_not_positive. unfold mul, c1_05, SFmul.
    apply binary_round_aux_sign. lia.
Qed.

Lemma drop_underscores_plain (prev : option ascii) (l cs : list ascii) :
  drop_underscores prev l = Some cs ->
  Forall (fun c => is_digit c = false) cs ->
  prev <> Some "_"%char ->
  l = cs.
Proof.
  revert prev cs. induction l as [|c l IH]; intros prev cs H Hd Hp.
  - simpl in H. destruct prev as [p|]; [|congruence].
    destruct (Ascii.eqb p "_"); congruence.
  - simpl in H. destruct (Ascii.eqb c "_") eqn:Ec.
    + exfalso. apply Ascii.eqb_eq in Ec. subst c.
      destruct prev as [p|]; [|discriminate].
      destruct (is_digit p); [|discriminate].
      destruct l as [|c' l']; [simpl in H; discriminate|].
      simpl in H. destruct (Ascii.eqb c' "_") eqn:Ec'; [discriminate|].
      * destruct (is_digit c') eqn:Edig; [|discriminate].
        destruct (drop_underscores (Some c') l') as [r|]; [|discriminate].
        simpl in H. injection H as <-. inversion Hd; congruence.
    + assert (Hok : match prev with
                    | Some p => if Ascii.eqb p "_" then is_digit c else true
                    | None => true
                    end = true).
      { destruct prev as [p|]; [|reflexivity].
        destruct (Ascii.eqb p "_") eqn:Ep; [|reflexivity].
        apply Ascii.eqb_eq in Ep. congruence. }
      rewrite Hok in H.
      destruct (drop_underscores (Some c) l) as [r|] eqn:Er; [|discriminate].
      simpl in H. injection H as <-. inversion Hd; subst. f_equal.
      apply (IH (Some c) r Er); [assumption|].
      intros E. injection E as ->. discriminate.
Qed.

End ShapeFacts.

(** ** Further properties of the handler and of the page *)

Module Extras.

Import PyFloat App Fields Rules Html Request FloatShape Scenarios.
Import FloatFacts Facts StrFacts HtmlFacts ShapeFacts.

(** X1. The submissions that pass validation are exactly those with at
    least one village, milk tokens that are all numbers, one per village or
    a single one, a distances field that is blank or holds one number per
    village, and a capacity that is blank or a number not [<= 0]. *)
Theorem accepted_iff (form : gmap string string) :
  errors form = [] <->
  villages_of form <> [] /\
  (exists vals, floats_of (milk_tokens_of form) = Some vals /\
     (length vals = length (villages_of form) \/ length vals = 1%nat)) /\
  (PyStr.strip (form_get form "distances") = "" \/
   exists ds, floats_of (dist_tokens_of form) = Some ds /\
     length ds = length (villages_of form)) /\
  (PyStr.strip (form_get form "capacity") = "" \/
   exists c, of_string (PyStr.strip (form_get form "capacity")) = Some c /\
     leb c zero = false).
Proof.
  split.
  - intros H.
    destruct (accepted_fields form H) as (Hv & (vals & Hf & Hne & Hm) & Hl & Hd & Hc).
    split; [exact Hv|]. split; [|split].
    + exists vals. split; [exact Hf|]. rewrite Hm in Hl.
      destruct (broadcasts vals (length (villages_of form))) eqn:Eb.
      * apply broadcasts_spec in Eb. tauto.
      * by left.
    + destruct Hd as [Hd|Hd]; [left|by right].
      unfold dist_blank in Hd.
      by destruct (PyStr.strip (form_get form "distances")).
    + exact Hc.
  - intros (Hv & (vals & Hf & Hl) & Hd & Hc). rewrite errors_eq.
    assert (Ev : nonempty (villages_of form) = true) by by apply nonempty_true.
    assert (E1 : village_errs form = []).
    { unfold village_errs. by rewrite Ev. }
    assert (E2 : milk_errs form = []).
    { unfold milk_errs.
      destruct (milk_tokens_of form) as [|t mt] eqn:Et.
      - change (Some [] = Some vals) in Hf. injection Hf as <-.
        simpl in Hl. destruct (villages_of form); simpl in *; [done|lia].
      - rewrite Hf, Ev. cbn [andb].
        destruct (broadcasts vals (length (villages_of form))) eqn:Eb;
          [reflexivity|]. cbn [negb andb].
        destruct Hl as [Hl|Hl].
        + by rewrite Hl, Nat.eqb_refl.
        + destruct (length vals =? length (villages_of form))%nat eqn:El;
            [reflexivity|]. exfalso.
          apply Nat.eqb_neq in El.
          assert (Hb : broadcasts vals (length (villages_of form)) = true).
          { apply broadcasts_spec. split; [exact Hl|].
            destruct (villages_of form); simpl in *; [done|lia]. }
          congruence. }
    assert (E3 : dist_errs form = []).
    { unfold dist_errs, dist_blank. destruct Hd as [->|(ds & -> & ->)];
        [reflexivity|].
      rewrite Nat.eqb_refl. by destruct (negb _). }
    assert (E4 : capacity_errs form = []).
    { unfold capacity_errs, capacity_text.
      destruct Hc as [->|(c & Hc & Hle)]; [reflexivity|].
      destruct (PyStr.strip (form_get form "capacity")); [reflexivity|].
      by rewrite Hc, Hle. }
    by rewrite E1, E2, E3, E4.
Qed.

(** X2. The errors come in the fixed order of the handler's checks, each
    message at most once, and never more than four of them: one for the
    villages, one for the milk, one for the distances, one for the
    capacity. *)
Theorem errors_in_order (form : gmap string string) :
  sublist (errors form) all_errors /\
  NoDup (errors form) /\
  (length (errors form) <= 4)%nat.
Proof.
  assert (Hs : sublist (errors form) all_errors).
  { rewrite errors_eq.
    unfold village_errs, milk_errs, dist_errs, capacity_errs, all_errors.
    destruct (nonempty (villages_of form));
      destruct (milk_tokens_of form) as [|t mt];
      [| destruct (floats_of (t :: mt));
         [destruct (_ && _)|] | | destruct (floats_of (t :: mt));
         [destruct (_ && _)|] ].
    all: destruct (dist_blank form);
      [| destruct (floats_of (dist_tokens_of form));
         [destruct (_ =? _)%nat|] ].
    all: destruct (capacity_text form) as [|c0 r];
      [| destruct (of_string (String c0 r)) as [c|];
         [destruct (leb c zero)|] ].
    all: cbn [app];
      repeat first [ apply sublist_nil | apply sublist_skip | apply sublist_cons ]. }
  split; [exact Hs|]. split.
  - apply (sublist_NoDup _ all_errors); [|exact Hs].
    apply (bool_decide_unpack _). vm_compute. reflexivity.
  - rewrite errors_eq, !length_app.
    unfold village_errs, milk_errs, dist_errs, capacity_errs.
    repeat case_match; simpl; lia.
Qed.

(** X3. The milk count is compared with the village count only when there
    is a village: with no village, or with a single milk token, the count
    error is never raised. *)
Theorem milk_count_skipped (form : gmap string string) :
  PyStr.tokens (form_get form "villages") = []
  \/ length (PyStr.tokens (form_get form "milk_data")) = 1%nat ->
  ~ In MSG_MILK_COUNT (errors form).
Proof.
  intros H Hin. apply In_errors in Hin.
  rewrite In_village_errs, In_milk_errs, In_dist_errs, In_capacity_errs in Hin.
  destruct Hin as [[? _]|[[[? _]|[[? _]|[_ Hm]]]|[[[? _]|[? _]]|[? _]]]];
    try discriminate.
  destruct Hm as (Hv & vals & Hf & _ & Hnb & Hl).
  destruct H as [H|H]; [contradiction|].
  apply length_mapM in Hf. fold (milk_tokens_of form) in H.
  destruct (decide (1 < length (villages_of form))%nat) as [Hn|Hn].
  - apply Hnb. split; [congruence|exact Hn].
  - apply Hl. rewrite <- Hf, H.
    destruct (villages_of form) as [|v [|v' vs]]; simpl in *; [done|done|lia].
Qed.

Lemma milk_count_skipped_witness :
  let form := form_of "" "1, 2" "" "" in
  PyStr.tokens (form_get form "villages") = [] /\
  ~ In MSG_MILK_COUNT (errors form).
Proof.
  intros form.
  assert (H : PyStr.tokens (form_get form "villages") = [])
    by (vm_compute; reflexivity).
  split; [exact H|]. apply milk_count_skipped. by left.
Defined.

(** X4. Every token that the handler keeps from a field is not empty, has
    no white space left to strip, and holds no comma. *)
Theorem tokens_clean (raw t : string) :
  In t (PyStr.tokens raw) -> clean_token t.
Proof.
  unfold PyStr.tokens. intros H.
  apply List.filter_In in H as [H Ht].
  apply in_map_iff in H as (f & <- & Hf).
  split; [|split].
  - intros E. rewrite E in Ht. discriminate.
  - apply strip_idem.
  - intros Hc. apply strip_chars in Hc.
    by apply (split_comma_no_comma raw f).
Qed.

Lemma tokens_clean_witness :
  In "B" (PyStr.tokens " A ,, B,") /\ clean_token "B".
Proof.
  assert (H : In "B" (PyStr.tokens " A ,, B,")) by (vm_compute; auto).
  split; [exact H|]. exact (tokens_clean _ _ H).
Defined.

Lemma split_comma_comma (a b : string) :
  PyStr.split_comma (a +:+ String "," b)
  = PyStr.split_comma a ++ PyStr.split_comma b.
Proof.
  induction a as [|c a IH]; [reflexivity|].
  rewrite append_cons. simpl. rewrite IH.
  destruct (Ascii.eqb c ","); [reflexivity|].
  pose proof (split_comma_nonempty a) as Hne.
  destruct (PyStr.split_comma a); [done|reflexivity].
Qed.

(** X5. Tokens compose over commas: the tokens of [a + "," + b] are the
    tokens of [a] followed by those of [b]; so a comma at either end and
    empty entries add nothing. *)
Theorem tokens_comma (a b : string) :
  PyStr.tokens (a +:+ String "," b) = PyStr.tokens a ++ PyStr.tokens b.
Proof.
  unfold PyStr.tokens.
  by rewrite split_comma_comma, List.map_app, List.filter_app.
Qed.

(** X6. Reading back what was written: the tokens of clean names joined
    with commas are those names, in order. *)
Theorem tokens_join (names : list string) :
  Forall clean_token names ->
  PyStr.tokens (String.concat "," names) = names.
Proof.
  intros H. destruct names as [|t names]; [reflexivity|].
  unfold PyStr.tokens. rewrite split_comma_concat; [|done|].
  - induction H as [|x l (Hne & Hs & _) _ IH]; [reflexivity|].
    simpl. rewrite Hs. destruct x; [done|]. simpl. by rewrite IH.
  - eapply Forall_impl; [exact H|]. intros x (_ & _ & Hc). exact Hc.
Qed.

Lemma tokens_join_witness :
  Forall clean_token ["North"; "East side"] /\
  PyStr.tokens (String.concat "," ["North"; "East side"])
  = ["North"; "East side"].
Proof.
  assert (H : Forall clean_token ["North"; "East side"]).
  { repeat constructor; try (vm_compute; reflexivity); try discriminate;
      vm_compute; intuition discriminate. }
  split; [exact H|]. exact (tokens_join _ H).
Defined.

(** X7. [split(",")] loses nothing: joining its fields with commas gives
    the text back, and there is one field more than there are commas. *)
Theorem split_comma_round_trip (s : string) :
  String.concat "," (PyStr.split_comma s) = s /\
  length (PyStr.split_comma s) = S (count "," s).
Proof. split; [apply join_split_comma|apply length_split_comma]. Qed.

Lemma parse_same_fields (f1 f2 : gmap string string) :
  (forall k, In k field_names -> form_get f1 k = form_get f2 k) ->
  do_POST_parse f1 = do_POST_parse f2.
Proof.
  intros H.
  assert (H1 : form_get f1 "villages" = form_get f2 "villages")
    by (apply H; simpl; auto).
  assert (H2 : form_get f1 "milk_data" = form_get f2 "milk_data")
    by (apply H; simpl; auto).
  assert (H3 : form_get f1 "distances" = form_get f2 "distances")
    by (apply H; simpl; auto).
  assert (H4 : form_get f1 "capacity" = form_get f2 "capacity")
    by (apply H; simpl; auto 6).
  unfold do_POST_parse. by rewrite H1, H2, H3, H4.
Qed.

(** X8. The page of a submission depends on the four fields only: two
    forms with the same villages, milk_data, distances and capacity give
    the same page, whatever else they hold. *)
Theorem page_reads_four_fields (f1 f2 : gmap string string) :
  (forall k, In k field_names -> form_get f1 k = form_get f2 k) ->
  do_POST f1 = do_POST f2.
Proof.
  intros H. pose proof (parse_same_fields f1 f2 H) as Hp.
  assert (H1 : form_get f1 "villages" = form_get f2 "villages")
    by (apply H; simpl; auto).
  assert (H2 : form_get f1 "milk_data" = form_get f2 "milk_data")
    by (apply H; simpl; auto).
  assert (H3 : form_get f1 "distances" = form_get f2 "distances")
    by (apply H; simpl; auto).
  assert (H4 : form_get f1 "capacity" = form_get f2 "capacity")
    by (apply H; simpl; auto 6).
  unfold do_POST, do_POST_args. rewrite Hp.
  destruct (nonempty (err_msgs_of (l_messages (do_POST_parse f2)))).
  - unfold render_page. cbn. by rewrite H1, H2, H3, H4.
  - destruct (optimize_route _ _) as [r d].
    unfold render_page. cbn. by rewrite H1, H2, H3, H4.
Qed.

Lemma page_reads_four_fields_witness :
  do_POST (<["submit" := "Generate Result"]> scenario_D) = do_POST scenario_D.
Proof.
  apply page_reads_four_fields. intros k Hk. unfold form_get.
  rewrite lookup_insert_ne; [reflexivity|].
  simpl in Hk. intuition (subst; discriminate).
Defined.

Lemma form_from_data_get (data : gmap string (list string)) (k : string) :
  form_get (form_from_data data) k = default "" (data !! k ≫= head).
Proof.
  unfold form_get, form_from_data. rewrite lookup_fmap.
  destruct (data !! k) as [[|x l]|]; reflexivity.
Qed.

(** X9. Of a field sent several times only the first value counts, and a
    field sent without a value reads as a missing one: two request bodies
    whose four fields have the same first values give the same page. *)
Theorem first_value_counts (d1 d2 : gmap string (list string)) :
  (forall k, In k field_names ->
             default "" (d1 !! k ≫= head) = default "" (d2 !! k ≫= head)) ->
  do_POST (form_from_data d1) = do_POST (form_from_data d2).
Proof.
  intros H. apply page_reads_four_fields. intros k Hk.
  rewrite !form_from_data_get. by apply H.
Qed.

Lemma first_value_counts_witness :
  do_POST (form_from_data {[ "villages" := ["A"; "B"]; "milk_data" := ["7"];
                             "capacity" := [] ]})
  = do_POST (form_from_data {[ "villages" := ["A"]; "milk_data" := ["7"; "8"] ]}).
Proof.
  apply first_value_counts. intros k Hk. simpl in Hk.
  destruct Hk as [<-|[<-|[<-|[<-|[]]]]]; vm_compute; reflexivity.
Defined.

(** X10. Every page of [do_POST] echoes the four submitted fields as they
    were sent (blank when missing), with or without errors. *)
Theorem fields_echoed (form : gmap string string) :
  villages_value (do_POST form) = form_get form "villages" /\
  milk_data_value (do_POST form) = form_get form "milk_data" /\
  distances_value (do_POST form) = form_get form "distances" /\
  capacity_value (do_POST form) = form_get form "capacity".
Proof.
  unfold do_POST, do_POST_args.
  destruct (nonempty _); [by cbn|].
  destruct (optimize_route _ _) as [r d]. by cbn.
Qed.

(** X11. A page of [do_POST] has a result section exactly when validation
    found no error, and exactly then it carries the success banner; it
    always carries at least one banner, so it is never the page of
    [do_GET]. *)
Theorem result_iff_accepted (form : gmap string string) :
  (result_section (do_POST form) <> None <-> errors form = []) /\
  (In ("success", MSG_SUCCESS) (messages_html (do_POST form))
   <-> errors form = []) /\
  messages_html (do_POST form) <> [] /\
  do_POST form <> do_GET.
Proof.
  assert (Hm : messages_html (do_POST form) <> [] /\
               (result_section (do_POST form) <> None <-> errors form = []) /\
               (In ("success", MSG_SUCCESS) (messages_html (do_POST form))
                <-> errors form = [])).
  { destruct (errors form) as [|e es] eqn:E.
    - unfold do_POST. rewrite (args_accepted form E). cbn.
      split; [discriminate|]. split; [split; [reflexivity|discriminate]|].
      split; [reflexivity|]. intros _. by left.
    - assert (Hne : errors form <> []) by congruence.
      unfold do_POST. rewrite (args_rejected form Hne), E. cbn.
      split; [discriminate|]. split; [split; [congruence|discriminate]|].
      split; [|discriminate].
      intros [H|H]; [discriminate|].
      unfold make_messages_html in H. rewrite List.map_map in H.
      apply in_map_iff in H as (m & Hm & _). discriminate. }
  destruct Hm as (H1 & H2 & H3).
  split; [exact H2|]. split; [exact H3|]. split; [exact H1|].
  intros E. rewrite E in H1. by apply H1.
Qed.

(** X12. On the page of an accepted submission every village is listed
    once, in input order, next to its own prediction: the list of items
    has the villages as first components and the predictions as second
    components, none dropped. *)
Theorem items_list_all (form : gmap string string) :
  errors form = [] ->
  exists rs,
    result_section (do_POST form) = Some rs /\
    List.map fst (items rs) = PyStr.tokens (form_get form "villages") /\
    Some (List.map snd (items rs)) = predictions (do_POST_args form) /\
    length (items rs) = length (PyStr.tokens (form_get form "villages")).
Proof.
  intros H. pose proof (accepted_fields form H) as (_ & _ & Hl & _).
  assert (Hlen : length (villages_of form)
                 = length (predict_supply (milk_values form))).
  { unfold predict_supply. by rewrite length_map. }
  unfold do_POST. rewrite (args_accepted form H), parse_eq.
  cbn [l_milk_data l_villages l_distances l_vehicle_capacity].
  fold (villages_of form).
  generalize dependent (predict_supply (milk_values form)).
  generalize (villages_of form). intros vs ps Hlen. cbn.
  eexists. split; [reflexivity|]. cbn.
  split; [|split].
  - apply fst_zip. lia.
  - f_equal. apply snd_zip. lia.
  - rewrite length_zip. lia.
Qed.

Lemma items_list_all_witness :
  errors scenario_B = [] /\
  exists rs,
    result_section (do_POST scenario_B) = Some rs /\
    List.map fst (items rs) = ["A"; "B"; "C"].
Proof.
  assert (H : errors scenario_B = []) by (vm_compute; reflexivity).
  split; [exact H|].
  destruct (items_list_all scenario_B H) as (rs & H1 & H2 & _).
  exists rs. split; [exact H1|]. rewrite H2. vm_compute. reflexivity.
Defined.

(** X13. [render_page] with [result=True] raises [TypeError] exactly
    when the villages, the predictions or the route are left out.  Given
    the three lists it pairs villages and predictions position by position
    and stops at the shorter list, lists the route as passed, shows the
    capacity paragraph exactly when a capacity is passed, and that
    paragraph reads "Sufficient" only for the verdict [True] (a missing
    verdict reads "Insufficient").  [do_POST] always passes the three
    lists, so its call never raises. *)
Theorem render_page_result :
  (forall a : RenderArgs,
      result a = true ->
      (render_page_checked a = None <->
       villages_list a = None \/ predictions a = None \/ route a = None) /\
      (forall vs ps r,
          villages_list a = Some vs -> predictions a = Some ps ->
          route a = Some r ->
          exists page rs,
            render_page_checked a = Some page /\
            result_section page = Some rs /\
            length (items rs) = Nat.min (length vs) (length ps) /\
            route_html rs = r /\
            (capacity_html rs = None <-> capacity a = None) /\
            (forall ch, capacity_html rs = Some ch ->
                        (shown_sufficient ch = true
                         <-> capacity_ok a = Some true)))) /\
  (forall form : gmap string string,
      render_page_checked (do_POST_args form) = Some (do_POST form)).
Proof.
  split.
  - intros a H. unfold render_page_checked. rewrite H. split.
    + destruct (villages_list a), (predictions a), (route a);
        split; intros Hn; try discriminate; try tauto;
        destruct Hn as [Hn|[Hn|Hn]]; discriminate.
    + intros vs ps r Hv Hp Hr. rewrite Hv, Hp, Hr.
      unfold render_page. rewrite H, Hv, Hp, Hr.
      eexists _, _. split; [reflexivity|]. split; [reflexivity|].
      cbn. split; [apply length_zip|]. split; [reflexivity|].
      destruct (capacity a) as [c|]; split; try done.
      intros ch [= <-]. cbn.
      destruct (capacity_ok a) as [[]|]; cbn; split; congruence.
  - intros form. unfold render_page_checked, do_POST, do_POST_args.
    destruct (nonempty _); [reflexivity|].
    destruct (optimize_route _ _) as [r d]. reflexivity.
Qed.

Lemma render_page_result_witness :
  result (do_POST_args scenario_D) = true /\
  exists page rs,
    render_page_checked (do_POST_args scenario_D) = Some page /\
    result_section page = Some rs /\
    length (items rs) = 1%nat /\ route_html rs = ["A"].
Proof.
  assert (H : result (do_POST_args scenario_D) = true)
    by (vm_compute; reflexivity).
  split; [exact H|].
  destruct (proj2 (proj1 render_page_result (do_POST_args scenario_D) H)
              ["A"] [S754_finite false 7388718138654720 (-46)] ["A"])
    as (page & rs & H1 & H2 & H3 & H4 & _);
    try (vm_compute; reflexivity).
  exists page, rs. auto.
Defined.

(** X14. The escaped text holds no angle bracket and no quote, so neither
    does the text put into an input's [value] attribute: a submitted value
    cannot close the attribute or open a tag. *)
Theorem escape_safe (s : string) :
  count "<" (escape s) = 0%nat /\ count ">" (escape s) = 0%nat /\
  count dquote (escape s) = 0%nat /\ count "'" (escape s) = 0%nat /\
  (forall (form : gmap string string) (key : string),
      count dquote (value_attr form key) = 0%nat).
Proof.
  repeat split; intros; apply count_escape; reflexivity.
Qed.

(** X15. A text without ampersand, angle bracket or quote is not changed
    by escaping. *)
Theorem escape_plain (s : string) :
  Forall (fun c => special c = false) (chars s) -> escape s = s.
Proof.
  induction s as [|a s IH]; [reflexivity|]. intros H.
  inversion H as [|? ? Ha Hs]; subst.
  rewrite escape_cons, (escape_plain_char a Ha), (IH Hs). reflexivity.
Qed.

Lemma escape_plain_witness :
  Forall (fun c => special c = false) (chars "Village A, B") /\
  escape "Village A, B" = "Village A, B".
Proof.
  assert (H : Forall (fun c => special c = false) (chars "Village A, B"))
    by (repeat constructor).
  split; [exact H|]. exact (escape_plain _ H).
Defined.

Lemma append_nil (y : string) : "" +:+ y = y.
Proof. reflexivity. Qed.

Lemma escape_head (a b : ascii) (r1 r2 : string) :
  escape (String a "") +:+ r1 = escape (String b "") +:+ r2 ->
  a = b /\ r1 = r2.
Proof.
  destruct (special a) eqn:Ha, (special b) eqn:Hb.
  - destruct (escape_special_char a Ha)
      as [[-> ->]|[[-> ->]|[[-> ->]|[[-> ->]|[-> ->]]]]];
      destruct (escape_special_char b Hb)
        as [[-> ->]|[[-> ->]|[[-> ->]|[[-> ->]|[-> ->]]]]];
      rewrite ?append_cons, ?append_nil; intros H;
      try discriminate; injection H as ->; auto.
  - rewrite (escape_plain_char b Hb).
    destruct (escape_special_char a Ha)
      as [[-> ->]|[[-> ->]|[[-> ->]|[[-> ->]|[-> ->]]]]];
      rewrite ?append_cons, ?append_nil; intros H; injection H as <- _;
      discriminate.
  - rewrite (escape_plain_char a Ha).
    destruct (escape_special_char b Hb)
      as [[-> ->]|[[-> ->]|[[-> ->]|[[-> ->]|[-> ->]]]]];
      rewrite ?append_cons, ?append_nil; intros H; injection H as -> _;
      discriminate.
  - rewrite (escape_plain_char a Ha), (escape_plain_char b Hb).
    rewrite ?append_cons, ?append_nil. intros H. by injection H.
Qed.

Lemma escape_cons_nonempty (a : ascii) (s : string) :
  escape (String a s) <> "".
Proof.
  rewrite escape_cons. destruct (special a) eqn:Ha.
  - destruct (escape_special_char a Ha)
      as [[_ ->]|[[_ ->]|[[_ ->]|[[_ ->]|[_ ->]]]]]; discriminate.
  - rewrite (escape_plain_char a Ha). discriminate.
Qed.

(** X16. Escaping loses nothing: two texts with the same escaped form are
    the same text. *)
Theorem escape_injective (s1 s2 : string) :
  escape s1 = escape s2 -> s1 = s2.
Proof.
  revert s2. induction s1 as [|a s1 IH]; intros [|b s2] H.
  - reflexivity.
  - symmetry in H. by apply escape_cons_nonempty in H.
  - by apply escape_cons_nonempty in H.
  - rewrite (escape_cons a), (escape_cons b) in H.
    apply escape_head in H as [-> H]. f_equal. by apply IH.
Qed.

Lemma escape_injective_witness :
  escape ("a" +:+ "<b") = escape "a<b" /\ "a" +:+ "<b" = "a<b".
Proof.
  assert (H : escape ("a" +:+ "<b") = escape "a<b") by reflexivity.
  split; [exact H|]. exact (escape_injective _ _ H).
Defined.

Lemma count_message_div (c : ascii) (cls m : string) :
  c = "<"%char \/ c = ">"%char \/ c = dquote ->
  cls = "success" \/ cls = "alert" ->
  count c (message_div cls m) = 2%nat.
Proof.
  intros Hc Hcls. unfold message_div.
  assert (He : count c (escape m) = 0%nat).
  { apply count_escape; destruct Hc as [->|[->| ->]]; reflexivity. }
  rewrite !count_app, He.
  destruct Hc as [->|[->| ->]], Hcls as [->| ->]; reflexivity.
Qed.

(** X17. In the text of the message banners the only angle brackets and
    quotes are those of the [div] tags, two of each per message, whatever
    the messages say; the text is empty when there is no message. *)
Theorem messages_text_tags (msgs : list (string * string)) :
  count "<" (make_messages_html_text msgs) = (2 * length msgs)%nat /\
  count ">" (make_messages_html_text msgs) = (2 * length msgs)%nat /\
  count dquote (make_messages_html_text msgs) = (2 * length msgs)%nat /\
  make_messages_html_text [] = "".
Proof.
  assert (H : forall c, c = "<"%char \/ c = ">"%char \/ c = dquote ->
                count c (make_messages_html_text msgs) = (2 * length msgs)%nat).
  { intros c Hc. unfold make_messages_html_text.
    rewrite count_concat
      by (destruct Hc as [->|[->| ->]]; reflexivity).
    rewrite List.map_map.
    rewrite (list_sum_const _ 2).
    - unfold make_messages_html. by rewrite length_map.
    - intros cm Hcm. apply count_message_div; [exact Hc|].
      by apply (class_of_message msgs). }
  repeat split; try (apply H; auto).
Qed.

(** X18. In the text of the route the only angle brackets are those of
    the list tags, two for each village and two for the list itself,
    and there is no quote, whatever the village names are. *)
Theorem route_text_tags (route : list string) :
  count "<" (route_html_text route) = (2 + 2 * length route)%nat /\
  count ">" (route_html_text route) = (2 + 2 * length route)%nat /\
  count dquote (route_html_text route) = 0%nat.
Proof.
  assert (Hli : forall c k, (c = "<"%char \/ c = ">"%char) /\ k = 2%nat
                            \/ c = dquote /\ k = 0%nat ->
      count c (String.concat ""
                 (List.map (fun r => "<li>" +:+ escape r +:+ "</li>") route))
      = (k * length route)%nat).
  { intros c k Hc. rewrite count_concat by reflexivity.
    rewrite List.map_map. apply list_sum_const. intros r _.
    assert (He : count c (escape r) = 0%nat).
    { apply count_escape;
        destruct Hc as [[[->| ->] _]|[-> _]]; reflexivity. }
    rewrite !count_app, He.
    destruct Hc as [[[->| ->] ->]|[-> ->]]; reflexivity. }
  unfold route_html_text. rewrite !count_app.
  rewrite (Hli "<"%char 2%nat), (Hli ">"%char 2%nat), (Hli dquote 0%nat)
    by auto.
  repeat split; simpl; lia.
Qed.

(** X19. A milk value that is not greater than zero (negative, zero or
    NaN) gives the prediction 0.0 exactly. *)
Theorem zero_prediction (milk : list float) (i : nat) (v : float) :
  milk !! i = Some v ->
  ltb zero v = false ->
  predict_supply milk !! i = Some zero.
Proof.
  intros Hi Hv. unfold predict_supply.
  change (List.map ?f ?l) with (f <$> l). rewrite list_lookup_fmap, Hi.
  cbn. unfold max. by rewrite (mul_c1_05_not_positive v Hv).
Qed.

Lemma zero_prediction_witness :
  predict_supply [S754_finite true 7036874417766400 (-46); S754_nan]
  !! 1%nat = Some zero.
Proof.
  apply (zero_prediction _ 1%nat S754_nan); reflexivity.
Defined.

Lemma digit_lower (c : ascii) : is_digit c = true -> lower c = c.
Proof.
  destruct c as [[] [] [] [] [] [] [] []]; vm_compute; congruence.
Qed.

Lemma parse_decimal_not_nan (cs : list ascii) :
  parse_decimal cs <> Some S754_nan.
Proof.
  unfold parse_decimal.
  destruct (take_sign cs) as [neg s1].
  destruct (span_digits s1) as [ip s2].
  destruct (match s2 with
            | [] => ([], s2)
            | c :: r => if Ascii.eqb c "." then span_digits r else ([], s2)
            end) as [fp s3].
  destruct (ip ++ fp) as [|d ds]; [discriminate|].
  destruct (take_exponent s3) as [ex [|? ?]]; [|discriminate].
  intros [= H]. pose proof (of_decimal_sign neg (digits_value (d :: ds))
                              (ex - Z.of_nat (length fp))) as Hs.
  rewrite H in Hs. exact Hs.
Qed.

Lemma word_nan_no_digit (cs : list ascii) :
  string_of_list_ascii (List.map lower (snd (take_sign cs))) = "nan" ->
  Forall (fun c => is_digit c = false) cs.
Proof.
  intros H.
  assert (Hl : List.map lower (snd (take_sign cs)) = list_ascii_of_string "nan").
  { rewrite <- H. by rewrite list_ascii_of_string_of_list_ascii. }
  assert (Hr : Forall (fun c => is_digit c = false) (snd (take_sign cs))).
  { destruct (snd (take_sign cs)) as [|c1 [|c2 [|c3 [|c4 r]]]];
      try discriminate.
    injection Hl as H1 H2 H3.
    repeat constructor.
    - destruct (is_digit c1) eqn:E; [|done].
      rewrite (digit_lower c1 E) in H1. subst c1. discriminate.
    - destruct (is_digit c2) eqn:E; [|done].
      rewrite (digit_lower c2 E) in H2. subst c2. discriminate.
    - destruct (is_digit c3) eqn:E; [|done].
      rewrite (digit_lower c3 E) in H3. subst c3. discriminate. }
  unfold take_sign in Hr. destruct cs as [|c cs']; [constructor|].
  destruct (Ascii.eqb c "-") eqn:E1.
  - apply Ascii.eqb_eq in E1. subst c. by constructor.
  - destruct (Ascii.eqb c "+") eqn:E2; [|exact Hr].
    apply Ascii.eqb_eq in E2. subst c. by constructor.
Qed.

(** X20. [float(text)] is NaN only when the text, without surrounding
    white space and an optional sign, spells "nan" in some letter case: no
    numeral, however large or small, is read as NaN. *)
Theorem nan_only_from_word (text : string) :
  of_string text = Some S754_nan -> bare_word text = "nan".
Proof.
  unfold of_string, bare_word.
  set (t := PyStr.rstrip_with isspace (PyStr.lstrip_with isspace text)).
  destruct (drop_underscores None (list_ascii_of_string t)) as [cs|] eqn:Ed;
    [|discriminate].
  destruct (parse_decimal cs) as [x|] eqn:Ep.
  { intros [= ->]. by apply parse_decimal_not_nan in Ep. }
  unfold parse_inf_or_nan.
  destruct (take_sign cs) as [neg s1] eqn:Es.
  set (w := string_of_list_ascii (List.map lower s1)).
  destruct (String.eqb w "inf" || String.eqb w "infinity"); [discriminate|].
  destruct (String.eqb w "nan") eqn:Ew; [|discriminate].
  intros _. apply String.eqb_eq in Ew.
  assert (Hnd : Forall (fun c => is_digit c = false) cs).
  { apply word_nan_no_digit. by rewrite Es. }
  rewrite (drop_underscores_plain None _ cs Ed Hnd) by discriminate.
  by rewrite Es.
Qed.

Lemma nan_only_from_word_witness :
  of_string " -NaN" = Some S754_nan /\ bare_word " -NaN" = "nan".
Proof.
  assert (H : of_string " -NaN" = Some S754_nan) by (vm_compute; reflexivity).
  split; [exact H|]. exact (nan_only_from_word _ H).
Defined.

(** X21. An infinite capacity passes validation and is always sufficient:
    the verdict of an accepted submission with capacity +inf is [True]. *)
Theorem infinite_capacity_sufficient (form : gmap string string) :
  errors form = [] ->
  l_vehicle_capacity (do_POST_parse form) = Some (S754_infinity false) ->
  capacity_ok (do_POST_args form) = Some true.
Proof.
  intros H Hc. rewrite (args_accepted form H). cbv zeta.
  cbn [capacity_ok]. rewrite Hc. cbn. f_equal.
  pose proof (round2_nonneg _ (sum_nonneg _
                (predict_supply_nonneg (l_milk_data (do_POST_parse form)))))
    as Hn.
  apply nonneg_cases in Hn. unfold geb.
  destruct (round2 _) as [s|s| |s m e]; try contradiction; subst; reflexivity.
Qed.

Lemma infinite_capacity_sufficient_witness :
  let form := form_of "A, B" "100, 1e308" "" "Infinity" in
  errors form = [] /\ capacity_ok (do_POST_args form) = Some true.
Proof.
  intros form.
  assert (H : errors form = []) by (vm_compute; reflexivity).
  split; [exact H|].
  apply (infinite_capacity_sufficient form H). vm_compute. reflexivity.
Defined.

(** X22. No rule looks at the value of a distance: replacing a non-blank
    distances field by another non-blank one with as many numbers leaves
    the errors unchanged (negative, infinite and NaN distances included). *)
Theorem distances_unchecked (form : gmap string string) (dist' : string)
    (ds ds' : list float) :
  PyStr.strip (form_get form "distances") <> "" ->
  PyStr.strip dist' <> "" ->
  floats_of (PyStr.tokens (form_get form "distances")) = Some ds ->
  floats_of (PyStr.tokens dist') = Some ds' ->
  length ds' = length ds ->
  errors (<["distances" := dist']> form) = errors form.
Proof.
  intros Hb Hb' Hf Hf' Hl.
  set (form' := <["distances" := dist']> form).
  assert (Hv : villages_of form' = villages_of form).
  { unfold villages_of, form'. by rewrite form_get_insert. }
  assert (Hd : dist_errs form' = dist_errs form).
  { unfold dist_errs, dist_blank, dist_tokens_of. rewrite Hv. unfold form'.
    rewrite form_get_insert. rewrite decide_True by done.
    rewrite Hf, Hf', Hl.
    destruct (PyStr.strip dist'); [done|].
    destruct (PyStr.strip (form_get form "distances")); [done|]. reflexivity. }
  rewrite !errors_eq. unfold village_errs, milk_errs, capacity_errs,
    milk_tokens_of, capacity_text.
  rewrite Hv, Hd. unfold form'. by rewrite !form_get_insert.
Qed.

Lemma distances_unchecked_witness :
  errors (<["distances" := "-5, nan"]> scenario_C) = errors scenario_C.
Proof.
  apply (distances_unchecked scenario_C "-5, nan"
           [S754_finite false 5629499534213120 (-50);
            S754_finite false 4503599627370496 (-49)]
           [S754_finite true 5629499534213120 (-50); S754_nan]);
    try (vm_compute; reflexivity); vm_compute; discriminate.
Defined.

(** X23. The handler keeps the distances only when there is one per
    village: whenever its [distances] variable is set, for any submission,
    its length is the number of villages and no distance error was
    raised. *)
Theorem distances_kept (form : gmap string string) (ds : list float) :
  l_distances (do_POST_parse form) = Some ds ->
  length ds = length (l_villages (do_POST_parse form)) /\
  ~ In MSG_DIST_NUMBERS (errors form) /\
  ~ In MSG_DIST_COUNT (errors form).
Proof.
  rewrite parse_eq. cbn [l_distances l_villages]. unfold distance_values.
  intros H. destruct (dist_blank form) eqn:Eb; [discriminate|].
  destruct (floats_of (dist_tokens_of form)) as [vals|] eqn:Ef;
    [|discriminate].
  destruct (length vals =? length (villages_of form))%nat eqn:El;
    [|discriminate].
  injection H as <-. apply Nat.eqb_eq in El. split; [exact El|].
  assert (Hd : dist_errs form = []).
  { unfold dist_errs. by rewrite Eb, Ef, (proj2 (Nat.eqb_eq _ _) El). }
  split; intros Hin; apply In_errors in Hin;
    rewrite Hd, In_village_errs, In_milk_errs, In_capacity_errs in Hin;
    simpl in Hin; intuition discriminate.
Qed.

Lemma distances_kept_witness :
  exists ds,
    l_distances (do_POST_parse scenario_C) = Some ds /\ length ds = 2%nat.
Proof.
  eexists. assert (H : l_distances (do_POST_parse scenario_C)
                       = Some [S754_finite false 5629499534213120 (-50);
                               S754_finite false 4503599627370496 (-49)])
    by (vm_compute; reflexivity).
  split; [exact H|].
  destruct (distances_kept scenario_C _ H) as [Hl _]. rewrite Hl.
  vm_compute. reflexivity.
Defined.

(** X24. A distances field that is not blank but holds no token (only
    commas and white space) is not treated as missing: with at least one
    village it raises the distance count error. *)
Theorem distances_only_commas (form : gmap string string) :
  PyStr.strip (form_get form "distances") <> "" ->
  PyStr.tokens (form_get form "distances") = [] ->
  PyStr.tokens (form_get form "villages") <> [] ->
  In MSG_DIST_COUNT (errors form).
Proof.
  intros Hb Ht Hv. apply In_errors. right. right. left.
  apply In_dist_errs. right. split; [reflexivity|].
  split; [exact Hb|]. exists []. unfold dist_tokens_of. rewrite Ht.
  split; [reflexivity|]. unfold villages_of.
  destruct (PyStr.tokens (form_get form "villages")); [done|discriminate].
Qed.

Lemma distances_only_commas_witness :
  errors (form_of "A" "1" " , " "") = [MSG_DIST_COUNT] /\
  In MSG_DIST_COUNT (errors (form_of "A" "1" " , " "")).
Proof.
  split; [vm_compute; reflexivity|].
  apply distances_only_commas; vm_compute; first [reflexivity|discriminate].
Defined.

End Extras.
